(** * OCI Compute MCP server: a shallow embedding of oci-compute-mcp-server.py

    The five tool operations of the server (list_compartments,
    list_compute_instances, get_compute_instance,
    get_compute_instance_by_name, compute_instance_action) and their two
    internal helpers are embedded as functions in a small monad that
    threads the state of the cloud backend, records every SDK call in a
    trace, and propagates Python exceptions.

    Modelling conventions.
    - A Python [str] is the byte string ([string]) of its UTF-8 encoding;
      equality, concatenation and splitting at dots are the same on both.
      The case mappings [str.upper] and [str.lower] are builtins of the
      interpreter: they are taken as parameters of the environment
      ([py_upper], [py_lower]); on ASCII text they are the mappings [upper]
      and [lower] below (the predicate [ascii_case_mapping]).
    - The value handed to [json.dumps] is kept as a JSON tree ([json]);
      a Python dict is an association list in insertion order.
    - An SDK call is an oracle of the backend: it may change the backend
      state, and it either answers or raises an exception carrying the
      text that [str(e)] yields.
    - Building a regional [ComputeClient] performs no request; a client is
      identified by the region it is bound to, and the SDK refuses to build
      one for an empty region ([ComputeClient]).
    - The [while True] pagination loop is bounded by a fuel argument;
      running out of fuel is the outcome [Diverges]. *)

From Stdlib Require Import String Ascii List Bool Arith Lia PrimFloat.
Import ListNotations.
Open Scope string_scope.

(** ** Python string primitives *)

Definition is_ascii_upper (c : ascii) : bool :=
  let n := nat_of_ascii c in ((65 <=? n)%nat && (n <=? 90)%nat)%bool.

Definition is_ascii_lower (c : ascii) : bool :=
  let n := nat_of_ascii c in ((97 <=? n)%nat && (n <=? 122)%nat)%bool.

Definition upper_ascii (c : ascii) : ascii :=
  if is_ascii_lower c then ascii_of_nat (nat_of_ascii c - 32) else c.

Definition lower_ascii (c : ascii) : ascii :=
  if is_ascii_upper c then ascii_of_nat (nat_of_ascii c + 32) else c.

(** [s.upper()] for ASCII text: the letters a-z become A-Z. *)
Fixpoint upper (s : string) : string :=
  match s with
  | EmptyString => EmptyString
  | String c r => String (upper_ascii c) (upper r)
  end.

(** [s.lower()] for ASCII text: the letters A-Z become a-z. *)
Fixpoint lower (s : string) : string :=
  match s with
  | EmptyString => EmptyString
  | String c r => String (lower_ascii c) (lower r)
  end.

(** Text made of ASCII characters only. *)
Fixpoint is_ascii_string (s : string) : bool :=
  match s with
  | EmptyString => true
  | String c r => (nat_of_ascii c <? 128)%nat && is_ascii_string r
  end.

(** [s.split('.')]: the segments between the dots; never empty. *)
Fixpoint split_dot (s : string) : list string :=
  match s with
  | EmptyString => [EmptyString]
  | String c r =>
      if Ascii.eqb c "."%char then EmptyString :: split_dot r
      else match split_dot r with
           | seg :: segs => String c seg :: segs
           | [] => [String c EmptyString]
           end
  end.

(** [sep.join(l)] *)
Definition join (sep : string) (l : list string) : string := String.concat sep l.

(** [x in l] for a list of strings. *)
Definition str_in (x : string) (l : list string) : bool :=
  existsb (String.eqb x) l.

(** Truthiness of a [str]-or-[None] value: [None] and [""] are false. *)
Definition truthy (o : option string) : bool :=
  match o with
  | None => false
  | Some s => negb (String.eqb s "")
  end.

(** Number of dots of a string: a string has one more dot-delimited
    segment than it has dots. *)
Fixpoint count_dots (s : string) : nat :=
  match s with
  | EmptyString => 0
  | String c r => (if Ascii.eqb c "."%char then 1 else 0) + count_dots r
  end.

(** Two characters that are the same letter up to case, or the same byte. *)
Definition same_char_ignoring_case (a b : ascii) : bool :=
  Ascii.eqb a b
  || (is_ascii_upper a && Ascii.eqb (ascii_of_nat (nat_of_ascii a + 32)) b)
  || (is_ascii_upper b && Ascii.eqb (ascii_of_nat (nat_of_ascii b + 32)) a).

(** Equality of strings ignoring case, character by character. *)
Fixpoint eq_ignoring_case (s t : string) : bool :=
  match s, t with
  | EmptyString, EmptyString => true
  | String a s', String b t' => same_char_ignoring_case a b && eq_ignoring_case s' t'
  | _, _ => false
  end.

(** ** JSON values and Python dicts *)

#[local] Set Warnings "-register-all".

Inductive json : Type :=
| JNull
| JStr (s : string)
| JNum (x : float)
| JArr (l : list json)
| JObj (fields : list (string * json)).

(** [d[k] = v]: replace in place when the key exists, append otherwise. *)
Fixpoint dict_set (d : list (string * json)) (k : string) (v : json)
  : list (string * json) :=
  match d with
  | [] => [(k, v)]
  | (k', v') :: d' =>
      if String.eqb k' k then (k, v) :: d' else (k', v') :: dict_set d' k v
  end.

Fixpoint dict_get (d : list (string * json)) (k : string) : option json :=
  match d with
  | [] => None
  | (k', v) :: d' => if String.eqb k' k then Some v else dict_get d' k
  end.

(** The member [k] of a JSON object. *)
Definition json_get (j : json) (k : string) : option json :=
  match j with
  | JObj d => dict_get d k
  | _ => None
  end.

(** The uniform error shape [{"error": msg}]. *)
Definition error_json (msg : string) : json := JObj [("error", JStr msg)].

Definition is_error_json (j : json) : Prop := exists msg, j = error_json msg.

Definition is_error_jsonb (j : json) : bool :=
  match j with
  | JObj [(k, JStr _)] => String.eqb k "error"
  | _ => false
  end.

(** ** SDK models *)

Record Compartment : Type := {
  comp_id : string;
  comp_name : string;
  comp_description : string;
  comp_lifecycle_state : string;
  comp_time_created : string   (* str(comp.time_created) *)
}.

Record ShapeConfig : Type := {
  ocpus : option float;
  memory_in_gbs : option float
}.

Record LaunchOptions : Type := {
  boot_volume_type : option string;
  firmware : option string;
  network_type : option string
}.

Record Instance : Type := {
  inst_id : string;
  display_name : string;
  lifecycle_state : string;
  availability_domain : string;
  shape : string;
  shape_config : option ShapeConfig;
  time_created : string;       (* str(instance.time_created) *)
  compartment_id : string;
  region : string;
  fault_domain : string;
  image_id : string;
  launch_mode : string;
  launch_options : option LaunchOptions;
  metadata : json;
  extended_metadata : json
}.

(** One page of [identity_client.list_compartments]. *)
Record ListResponse : Type := {
  data : list Compartment;
  next_page : option string
}.

(** A compute client: the process-wide one, or one bound to a region. *)
Inductive client : Type :=
| DefaultClient
| RegionalClient (region : string).

(** ** Backend oracles, trace and monad *)

Inductive result (A : Type) : Type :=
| Ok (a : A)
| Err (msg : string).
Arguments Ok {A} a.
Arguments Err {A} msg.

Inductive call : Type :=
| ListCompartments (tenancy : string) (page : option string)
| GetCompartment (compartment : string)
| ListInstances (c : client) (compartment : string)
| GetInstance (c : client) (instance_id : string)
| InstanceAction (c : client) (instance_id : string) (action : string).

(** A call that was made, and whether the backend answered it. *)
Record event : Type := { ev_call : call; ev_ok : bool }.

(** [oci.core.ComputeClient(temp_config)] with [temp_config["region"]] set
    to [region]: no request is made; an empty region is refused. *)
Definition ComputeClient (region : string) : result client :=
  if String.eqb region ""
  then Err "Must supply either a region or an endpoint."
  else Ok (RegionalClient region).

(** The environment of the server: the tenancy of the configuration, the
    interpreter's case mappings [str.upper] and [str.lower], and the
    services of the backend. *)
Record Env (W : Type) : Type := {
  tenancy_id : string;
  py_upper : string -> string;
  py_lower : string -> string;
  be_list_compartments : string -> option string -> W -> result ListResponse * W;
  be_get_compartment : string -> W -> result Compartment * W;
  be_list_instances : client -> string -> W -> result (list Instance) * W;
  be_get_instance : client -> string -> W -> result Instance * W;
  be_instance_action : client -> string -> string -> W -> result unit * W
}.
Arguments tenancy_id {W} _.
Arguments py_upper {W} _ _.
Arguments py_lower {W} _ _.
Arguments be_list_compartments {W} _ _ _ _.
Arguments be_get_compartment {W} _ _ _.
Arguments be_list_instances {W} _ _ _ _.
Arguments be_get_instance {W} _ _ _ _.
Arguments be_instance_action {W} _ _ _ _ _.

Record state (W : Type) : Type := { world : W; trace : list event }.
Arguments world {W} _.
Arguments trace {W} _.
Arguments Build_state {W} _ _.

Inductive outcome (W A : Type) : Type :=
| Returns (a : A) (s : state W)
| Raises (msg : string) (s : state W)
| Diverges.
Arguments Returns {W A} a s.
Arguments Raises {W A} msg s.
Arguments Diverges {W A}.

Definition M (W A : Type) : Type := state W -> outcome W A.

Definition ret {W A} (a : A) : M W A := fun s => Returns a s.

Definition bind {W A B} (m : M W A) (k : A -> M W B) : M W B :=
  fun s =>
    match m s with
    | Returns a s' => k a s'
    | Raises msg s' => Raises msg s'
    | Diverges => Diverges
    end.

(** [try: body / except Exception as e: handler(str(e))] *)
Definition try_except {W A} (body : M W A) (handler : string -> M W A) : M W A :=
  fun s =>
    match body s with
    | Returns a s' => Returns a s'
    | Raises msg s' => handler msg s'
    | Diverges => Diverges
    end.

(** Perform one SDK call: run the oracle, log the event, raise on failure. *)
Definition perform {W A} (c : call) (oracle : W -> result A * W) : M W A :=
  fun s =>
    match oracle (world s) with
    | (Ok a, w') => Returns a (Build_state w' (trace s ++ [{| ev_call := c; ev_ok := true |}]))
    | (Err msg, w') => Raises msg (Build_state w' (trace s ++ [{| ev_call := c; ev_ok := false |}]))
    end.

(** Build the client of a region, or raise what the SDK raises. *)
Definition new_compute_client {W} (region : string) : M W client :=
  fun s =>
    match ComputeClient region with
    | Ok c => Returns c s
    | Err msg => Raises msg s
    end.

Declare Scope py_scope.
Delimit Scope py_scope with py.
Notation "x <- m ;; k" := (bind m (fun x => k))
  (at level 61, m at next level, right associativity) : py_scope.
Notation "m ;;; k" := (bind m (fun _ => k))
  (at level 61, right associativity) : py_scope.
Open Scope py_scope.

(** ** The server *)

Definition opt_str (o : option string) : json :=
  match o with Some s => JStr s | None => JNull end.

Definition opt_num (o : option float) : json :=
  match o with Some x => JNum x | None => JNull end.

(** The dict built for each compartment by [list_compartments]. *)
Definition compartment_json (comp : Compartment) : json :=
  JObj [("id", JStr (comp_id comp));
        ("name", JStr (comp_name comp));
        ("description", JStr (comp_description comp));
        ("lifecycle_state", JStr (comp_lifecycle_state comp));
        ("time_created", JStr (comp_time_created comp))].

(** The dict built for each instance by [list_compute_instances]. *)
Definition instance_summary_json (instance : Instance) : json :=
  JObj [("id", JStr (inst_id instance));
        ("display_name", JStr (display_name instance));
        ("lifecycle_state", JStr (lifecycle_state instance));
        ("availability_domain", JStr (availability_domain instance));
        ("shape", JStr (shape instance));
        ("time_created", JStr (time_created instance));
        ("compartment_id", JStr (compartment_id instance))].

(** The dict built by [get_compute_instance]. *)
Definition instance_json (instance : Instance) : json :=
  JObj [("id", JStr (inst_id instance));
        ("display_name", JStr (display_name instance));
        ("lifecycle_state", JStr (lifecycle_state instance));
        ("availability_domain", JStr (availability_domain instance));
        ("shape", JStr (shape instance));
        ("shape_config",
          match shape_config instance with
          | Some sc => JObj [("ocpus", opt_num (ocpus sc));
                             ("memory_in_gbs", opt_num (memory_in_gbs sc))]
          | None => JNull
          end);
        ("time_created", JStr (time_created instance));
        ("compartment_id", JStr (compartment_id instance));
        ("region", JStr (region instance));
        ("fault_domain", JStr (fault_domain instance));
        ("image_id", JStr (image_id instance));
        ("launch_mode", JStr (launch_mode instance));
        ("launch_options",
          match launch_options instance with
          | Some lo => JObj [("boot_volume_type", opt_str (boot_volume_type lo));
                             ("firmware", opt_str (firmware lo));
                             ("network_type", opt_str (network_type lo))]
          | None => JNull
          end);
        ("metadata", metadata instance);
        ("extended_metadata", extended_metadata instance)].

Definition valid_actions : list string := ["START"; "STOP"; "RESET"].

(** The client of the three read tools: the process-wide client when
    [region] is falsy, a fresh regional client otherwise (a truthy region
    is not empty, so the SDK builds it). *)
Definition client_for (region : option string) : client :=
  match region with
  | Some r => if truthy region then RegionalClient r else DefaultClient
  | None => DefaultClient
  end.

Section Server.

Context {W : Type} (E : Env W).

(** *** SDK calls *)

Definition identity_list_compartments (page : option string) : M W ListResponse :=
  perform (ListCompartments (tenancy_id E) page)
          (be_list_compartments E (tenancy_id E) page).

Definition identity_get_compartment (compartment : string) : M W Compartment :=
  perform (GetCompartment compartment) (be_get_compartment E compartment).

Definition list_instances (c : client) (compartment : string) : M W (list Instance) :=
  perform (ListInstances c compartment) (be_list_instances E c compartment).

Definition get_instance (c : client) (instance_id : string) : M W Instance :=
  perform (GetInstance c instance_id) (be_get_instance E c instance_id).

Definition instance_action (c : client) (instance_id action : string) : M W unit :=
  perform (InstanceAction c instance_id action) (be_instance_action E c instance_id action).

(** *** get_all_compartments *)

(** The [while True] loop; [page] and [all_compartments] are its variables. *)
Fixpoint get_all_compartments_loop (fuel : nat) (page : option string)
  (all_compartments : list Compartment) : M W (list Compartment) :=
  match fuel with
  | O => fun _ => Diverges
  | S fuel' =>
      response <- identity_list_compartments (if truthy page then page else None) ;;
      let all_compartments := (all_compartments ++ data response)%list in
      if negb (truthy (next_page response)) then ret all_compartments
      else get_all_compartments_loop fuel' (next_page response) all_compartments
  end.

Definition get_all_compartments (fuel : nat) : M W (list Compartment) :=
  all_compartments <- get_all_compartments_loop fuel None [] ;;
  root <- identity_get_compartment (tenancy_id E) ;;
  ret (all_compartments ++ [root])%list.

(** *** get_compartment_by_name *)

Definition compartment_matches (compartment_name : string) (compartment : Compartment) : bool :=
  String.eqb (py_lower E (comp_name compartment)) (py_lower E compartment_name).

Definition get_compartment_by_name (fuel : nat) (compartment_name : string)
  : M W (option Compartment) :=
  compartments <- get_all_compartments fuel ;;
  ret (find (compartment_matches compartment_name) compartments).

(** *** list_compartments *)

Definition list_compartments (fuel : nat) : M W json :=
  try_except
    (compartments <- get_all_compartments fuel ;;
     ret (JArr (map compartment_json compartments)))
    (fun e => ret (error_json ("Failed to list compartments: " ++ e))).

(** *** list_compute_instances *)

Definition compartment_not_found (compartment_name : string) : json :=
  error_json ("Compartment '" ++ compartment_name
              ++ "' not found. Use list_compartments() to see available compartments.").

Definition list_compute_instances (fuel : nat) (compartment_name : string)
  (region : option string) : M W json :=
  try_except
    (compartment <- get_compartment_by_name fuel compartment_name ;;
     match compartment with
     | None => ret (compartment_not_found compartment_name)
     | Some compartment =>
         instances <- list_instances (client_for region) (comp_id compartment) ;;
         ret (JArr (map instance_summary_json instances))
     end)
    (fun e => ret (error_json ("Failed to list compute instances: " ++ e))).

(** *** get_compute_instance *)

Definition get_compute_instance (instance_id : string) (region : option string) : M W json :=
  try_except
    (instance <- get_instance (client_for region) instance_id ;;
     ret (instance_json instance))
    (fun e => ret (error_json ("Failed to get compute instance: " ++ e))).

(** *** get_compute_instance_by_name *)

Definition instance_matches (instance_name : string) (instance : Instance) : bool :=
  String.eqb (py_lower E (display_name instance)) (py_lower E instance_name).

Definition instance_not_found (instance_name compartment_name : string) : json :=
  error_json ("Instance '" ++ instance_name ++ "' not found in compartment '"
              ++ compartment_name ++ "'").

Definition get_compute_instance_by_name (fuel : nat) (instance_name compartment_name : string)
  (region : option string) : M W json :=
  try_except
    (compartment <- get_compartment_by_name fuel compartment_name ;;
     match compartment with
     | None => ret (compartment_not_found compartment_name)
     | Some compartment =>
         instances <- list_instances (client_for region) (comp_id compartment) ;;
         match find (instance_matches instance_name) instances with
         | Some instance => get_compute_instance (inst_id instance) region
         | None => ret (instance_not_found instance_name compartment_name)
         end
     end)
    (fun e => ret (error_json ("Failed to get compute instance by name: " ++ e))).

(** *** compute_instance_action *)

(** The region the action client is bound to: the argument when it is
    truthy, else [instance_id.split('.')[3]]; [None] is the [IndexError]. *)
Definition resolve_region (instance_id : string) (region : option string) : option string :=
  if truthy region then region else nth_error (split_dot instance_id) 3.

Definition invalid_action (action : string) : json :=
  error_json ("Invalid action '" ++ action ++ "'. Valid actions are: "
              ++ join ", " valid_actions).

(** The [if action == ...] chain: performs the calls and fills [result]. *)
Definition perform_the_action (regional_compute_client : client)
  (instance_id action current_state : string) (result : list (string * json))
  : M W (list (string * json)) :=
  if String.eqb action "START" then
    if String.eqb current_state "STOPPED" then
      (instance_action regional_compute_client instance_id "START" ;;;
       let result := dict_set result "status" (JStr "Action initiated") in
       ret (dict_set result "message" (JStr "Instance start initiated")))
    else
      let result := dict_set result "status" (JStr "No action needed") in
      ret (dict_set result "message"
             (JStr ("Instance is already in state: " ++ current_state)))
  else if String.eqb action "STOP" then
    if String.eqb current_state "RUNNING" then
      (instance_action regional_compute_client instance_id "STOP" ;;;
       let result := dict_set result "status" (JStr "Action initiated") in
       ret (dict_set result "message" (JStr "Instance stop initiated")))
    else
      let result := dict_set result "status" (JStr "No action needed") in
      ret (dict_set result "message"
             (JStr ("Instance is already in state: " ++ current_state)))
  else if String.eqb action "RESET" then
    if str_in current_state ["RUNNING"; "STOPPED"] then
      (result <- (if String.eqb current_state "RUNNING" then
                    (instance_action regional_compute_client instance_id "STOP" ;;;
                     ret (dict_set result "message"
                            (JStr "Instance reset initiated (stop then start)")))
                  else
                    ret (dict_set result "message"
                           (JStr "Instance start initiated (was already stopped)"))) ;;
       instance_action regional_compute_client instance_id "START" ;;;
       ret (dict_set result "status" (JStr "Action initiated")))
    else
      let result := dict_set result "status" (JStr "Cannot reset") in
      ret (dict_set result "message"
             (JStr ("Cannot reset instance in state: " ++ current_state)))
  else ret result.

Definition compute_instance_action (instance_id action : string) (region : option string)
  : M W json :=
  try_except
    (match resolve_region instance_id region with
     | None => ret (error_json "Invalid instance_id format. Cannot extract region.")
     | Some region =>
         regional_compute_client <- new_compute_client region ;;
         let action := py_upper E action in
         if negb (str_in action valid_actions) then ret (invalid_action action)
         else
           instance <- get_instance regional_compute_client instance_id ;;
           let current_state := lifecycle_state instance in
           let result := [("instance_id", JStr instance_id);
                          ("instance_name", JStr (display_name instance));
                          ("action_requested", JStr action);
                          ("previous_state", JStr current_state)] in
           result <- perform_the_action regional_compute_client instance_id action
                       current_state result ;;
           ret (JObj result)
     end)
    (fun e => ret (error_json ("Failed to perform instance action: " ++ e))).

End Server.

(** ** Concrete backends used to run the model *)

Module Mock.

Definition instance_in_state (instance_id st : string) : Instance :=
  {| inst_id := instance_id;
     display_name := "web-1";
     lifecycle_state := st;
     availability_domain := "AD-1";
     shape := "VM.Standard.E4.Flex";
     shape_config := None;
     time_created := "2025-01-01 00:00:00+00:00";
     compartment_id := "ocid1.compartment.oc1..dev";
     region := "iad";
     fault_domain := "FAULT-DOMAIN-1";
     image_id := "ocid1.image.oc1.iad.img";
     launch_mode := "NATIVE";
     launch_options := None;
     metadata := JObj [];
     extended_metadata := JObj [] |}.

Definition compartment_named (id name : string) : Compartment :=
  {| comp_id := id;
     comp_name := name;
     comp_description := name;
     comp_lifecycle_state := "ACTIVE";
     comp_time_created := "2025-01-01 00:00:00+00:00" |}.

Definition dev : Compartment := compartment_named "ocid1.compartment.oc1..dev" "Dev".
Definition prod : Compartment := compartment_named "ocid1.compartment.oc1..prod" "Prod".
Definition root : Compartment := compartment_named "ocid1.tenancy.oc1..root" "acme".

(** A tenancy whose compartments come in two pages, with one instance whose
    lifecycle state is the backend state.  START and STOP move the instance
    to STARTING and STOPPING; the actions listed in [rejected] raise. *)
Definition env (rejected : list string) : Env string :=
  {| tenancy_id := "ocid1.tenancy.oc1..root";
     py_upper := upper;
     py_lower := lower;
     be_list_compartments := fun _ page w =>
       match page with
       | None => (Ok {| data := [dev]; next_page := Some "page2" |}, w)
       | Some _ => (Ok {| data := [prod]; next_page := None |}, w)
       end;
     be_get_compartment := fun _ w => (Ok root, w);
     be_list_instances := fun _ _ w =>
       (Ok [instance_in_state "ocid1.instance.oc1.iad.abc123" w], w);
     be_get_instance := fun _ instance_id w => (Ok (instance_in_state instance_id w), w);
     be_instance_action := fun _ _ action w =>
       if str_in action rejected then (Err "409 Conflict", w)
       else if String.eqb action "STOP" then (Ok tt, "STOPPING")
       else if String.eqb action "START" then (Ok tt, "STARTING")
       else (Ok tt, w) |}.


Definition start (w : string) : state string := {| world := w; trace := [] |}.

Definition abc123 : string := "ocid1.instance.oc1.iad.abc123".

(** An identity service that answers every page with a further token. *)
Definition endless : Env unit :=
  {| tenancy_id := "ocid1.tenancy.oc1..root";
     py_upper := upper;
     py_lower := lower;
     be_list_compartments := fun _ _ w =>
       (Ok {| data := [dev]; next_page := Some "more" |}, w);
     be_get_compartment := fun _ w => (Ok root, w);
     be_list_instances := fun _ _ w => (Ok [], w);
     be_get_instance := fun _ _ w => (Err "404 NotAuthorizedOrNotFound", w);
     be_instance_action := fun _ _ _ w => (Err "404 NotAuthorizedOrNotFound", w) |}.

(** The tenancy of [env] with faults: the second page of compartments
    fails when [page2_fails], the root compartment cannot be read when
    [root_fails], and the detail query of an instance fails when
    [detail_fails]; listing instances always answers. *)
Definition faulty (page2_fails root_fails detail_fails : bool) : Env string :=
  {| tenancy_id := "ocid1.tenancy.oc1..root";
     py_upper := upper;
     py_lower := lower;
     be_list_compartments := fun _ page w =>
       match page with
       | None => (Ok {| data := [dev]; next_page := Some "page2" |}, w)
       | Some _ =>
           if page2_fails then (Err "500 InternalError", w)
           else (Ok {| data := [prod]; next_page := None |}, w)
       end;
     be_get_compartment := fun _ w =>
       if root_fails then (Err "404 NotAuthorizedOrNotFound", w) else (Ok root, w);
     be_list_instances := fun _ _ w => (Ok [instance_in_state abc123 w], w);
     be_get_instance := fun _ instance_id w =>
       if detail_fails then (Err "429 TooManyRequests", w)
       else (Ok (instance_in_state instance_id "RUNNING"), w);
     be_instance_action := fun _ _ _ w => (Ok tt, w) |}.

(** [str.upper] on ASCII text and on the German sharp s (the bytes 195,
    159 in UTF-8), whose upper case is "SS". *)
Fixpoint upper_eszett (s : string) : string :=
  match s with
  | EmptyString => EmptyString
  | String a r =>
      match r with
      | String b r' =>
          if Ascii.eqb a "195"%char && Ascii.eqb b "159"%char
          then String "S"%char (String "S"%char (upper_eszett r'))
          else String (upper_ascii a) (upper_eszett r)
      | EmptyString => String (upper_ascii a) EmptyString
      end
  end.

Definition strasse : Compartment :=
  compartment_named "ocid1.compartment.oc1..strasse" "straße".

(** A tenancy with one listed compartment, named with a sharp s.  Its
    [py_lower] is [lower]: lower-casing leaves a sharp s as it is, so on
    the names used with this backend it is [str.lower]. *)
Definition german : Env string :=
  {| tenancy_id := "ocid1.tenancy.oc1..root";
     py_upper := upper_eszett;
     py_lower := lower;
     be_list_compartments := fun _ _ w =>
       (Ok {| data := [strasse]; next_page := None |}, w);
     be_get_compartment := fun _ w => (Ok root, w);
     be_list_instances := fun _ _ w => (Ok [instance_in_state abc123 w], w);
     be_get_instance := fun _ instance_id w => (Ok (instance_in_state instance_id w), w);
     be_instance_action := fun _ _ _ w => (Ok tt, w) |}.

End Mock.

(** Lifecycle actions dispatched in a trace, in order. *)
Fixpoint dispatched (t : list event) : list string :=
  match t with
  | [] => []
  | ev :: t' =>
      match ev_call ev with
      | InstanceAction _ _ action => action :: dispatched t'
      | _ => dispatched t'
      end
  end.

(** The client a compute call goes through. *)
Definition call_client (c : call) : option client :=
  match c with
  | ListInstances cl _ | GetInstance cl _ | InstanceAction cl _ _ => Some cl
  | _ => None
  end.

(** The status member of an Action Result. *)
Definition status_of (j : json) : option json := json_get j "status".

(** ** Vocabulary of the statements *)

(** The events an invocation started in [s] has added when it ends in [s']. *)
Definition issued {W} (s s' : state W) : list event :=
  skipn (length (trace s)) (trace s').

Definition get_event (r instance_id : string) (ok : bool) : event :=
  {| ev_call := GetInstance (RegionalClient r) instance_id; ev_ok := ok |}.

Definition action_event (r instance_id action : string) (ok : bool) : event :=
  {| ev_call := InstanceAction (RegionalClient r) instance_id action; ev_ok := ok |}.

(** [ev] is a lifecycle-action call on instance [instance_id] in region [r]. *)
Definition is_action_event_of (r instance_id : string) (ev : event) : Prop :=
  exists a ok, ev = action_event r instance_id a ok.

(** Some call of the trace was not answered. *)
Definition some_failed (t : list event) : bool :=
  existsb (fun ev => negb (ev_ok ev)) t.




(** The pages the identity service serves from [page] on, following the
    continuation tokens until one is absent or empty. *)
Inductive pagination {W} (E : Env W)
  : option string -> W -> list ListResponse -> W -> Prop :=
| pagination_last page w response w' :
    be_list_compartments E (tenancy_id E) page w = (Ok response, w') ->
    truthy (next_page response) = false ->
    pagination E page w [response] w'
| pagination_next page w response w' responses w'' :
    be_list_compartments E (tenancy_id E) page w = (Ok response, w') ->
    truthy (next_page response) = true ->
    pagination E (next_page response) w' responses w'' ->
    pagination E page w (response :: responses) w''.

(** The events of fetching those pages. *)
Fixpoint page_events (tenancy : string) (page : option string)
  (responses : list ListResponse) : list event :=
  match responses with
  | [] => []
  | response :: responses' =>
      {| ev_call := ListCompartments tenancy page; ev_ok := true |}
      :: page_events tenancy (next_page response) responses'
  end.

(** The event of fetching the root compartment. *)
Definition root_event (tenancy : string) : event :=
  {| ev_call := GetCompartment tenancy; ev_ok := true |}.

(** All the compartments of a list of pages. *)
Definition page_data (responses : list ListResponse) : list Compartment :=
  concat (map data responses).

(** The first element of [l] that satisfies [p], with what precedes it:
    [first_such p l x] holds when [x] is in [l], satisfies [p], and nothing
    before it does. *)
Definition first_such {A} (p : A -> bool) (l : list A) (x : A) : Prop :=
  exists before after,
    l = (before ++ x :: after)%list /\ p x = true
    /\ forall y, In y before -> p y = false.

(** On ASCII text the interpreter's case mappings are [upper] and [lower]. *)
Definition ascii_case_mapping {W} (E : Env W) : Prop :=
  forall s, is_ascii_string s = true ->
            py_upper E s = upper s /\ py_lower E s = lower s.



(** The continuation token in force after the pages [responses]. *)
Fixpoint token_after (page : option string) (responses : list ListResponse)
  : option string :=
  match responses with
  | [] => page
  | response :: responses' => token_after (next_page response) responses'
  end.

(** A pagination that breaks: the pages [responses] are served from [page]
    on, each with a further token, and the next fetch raises [msg]. *)
Inductive broken_pagination {W} (E : Env W)
  : option string -> W -> list ListResponse -> string -> W -> Prop :=
| broken_here page w msg w' :
    be_list_compartments E (tenancy_id E) page w = (Err msg, w') ->
    broken_pagination E page w [] msg w'
| broken_later page w response w' responses msg w'' :
    be_list_compartments E (tenancy_id E) page w = (Ok response, w') ->
    truthy (next_page response) = true ->
    broken_pagination E (next_page response) w' responses msg w'' ->
    broken_pagination E page w (response :: responses) msg w''.

(** The event of a compute call, for either client. *)
Definition list_instances_event (c : client) (compartment : string) (ok : bool) : event :=
  {| ev_call := ListInstances c compartment; ev_ok := ok |}.

Definition detail_event (c : client) (instance_id : string) (ok : bool) : event :=
  {| ev_call := GetInstance c instance_id; ev_ok := ok |}.

(** The members of a JSON object, in order. *)
Definition json_keys (j : json) : list string :=
  match j with
  | JObj d => map fst d
  | _ => []
  end.

(** The only sequences of lifecycle actions the coordinator may dispatch. *)
Definition dispatch_shapes : list (list string) :=
  [ []; ["START"]; ["STOP"]; ["STOP"; "START"] ].

(** The event of the page fetch that failed after the pages [responses]. *)
Definition broken_event (tenancy : string) (page : option string)
  (responses : list ListResponse) : event :=
  {| ev_call := ListCompartments tenancy (token_after page responses); ev_ok := false |}.

(** A computation that dispatches no lifecycle action, however it ends. *)
Definition harmless {W A} (m : M W A) : Prop :=
  forall s,
    match m s with
    | Returns _ s' | Raises _ s' =>
        exists new, trace s' = (trace s ++ new)%list /\ dispatched new = []
    | Diverges => True
    end.



(** ** Facts on the string primitives *)

Definition all_ascii : list ascii := map ascii_of_nat (seq 0 256).

Lemma all_ascii_complete (c : ascii) : In c all_ascii.
Proof.
  unfold all_ascii. apply in_map_iff. exists (nat_of_ascii c). split.
  - apply ascii_nat_embedding.
  - apply in_seq. pose proof (nat_ascii_bounded c). lia.
Qed.

Lemma ascii_forall (P : ascii -> bool) :
  forallb P all_ascii = true -> forall c, P c = true.
Proof.
  intros H c. rewrite forallb_forall in H. apply H, all_ascii_complete.
Qed.

Lemma ascii_forall2 (P : ascii -> ascii -> bool) :
  forallb (fun a => forallb (P a) all_ascii) all_ascii = true ->
  forall a b, P a b = true.
Proof.
  intros H a b.
  apply (ascii_forall (P a)).
  apply (ascii_forall (fun a => forallb (P a) all_ascii) H a).
Qed.

Lemma upper_ascii_idempotent (c : ascii) : upper_ascii (upper_ascii c) = upper_ascii c.
Proof.
  apply Ascii.eqb_eq.
  apply (ascii_forall (fun c => Ascii.eqb (upper_ascii (upper_ascii c)) (upper_ascii c))).
  vm_compute. reflexivity.
Qed.

Lemma upper_idempotent (s : string) : upper (upper s) = upper s.
Proof.
  induction s as [|c s IH]; simpl.
  - reflexivity.
  - rewrite upper_ascii_idempotent, IH. reflexivity.
Qed.

Lemma upper_ascii_is_ascii (c : ascii) :
  (nat_of_ascii c <? 128)%nat = true -> (nat_of_ascii (upper_ascii c) <? 128)%nat = true.
Proof.
  intros H.
  assert (Himp : implb (nat_of_ascii c <? 128)%nat
                       (nat_of_ascii (upper_ascii c) <? 128)%nat = true).
  { apply (ascii_forall (fun c => implb (nat_of_ascii c <? 128)%nat
                                        (nat_of_ascii (upper_ascii c) <? 128)%nat)).
    vm_compute. reflexivity. }
  rewrite H in Himp. exact Himp.
Qed.

Lemma upper_is_ascii (s : string) :
  is_ascii_string s = true -> is_ascii_string (upper s) = true.
Proof.
  induction s as [|c s IH]; simpl; [reflexivity|].
  rewrite !andb_true_iff. intros [Hc Hs].
  split; [apply upper_ascii_is_ascii; exact Hc | apply IH; exact Hs].
Qed.

Lemma lower_ascii_same_char (a b : ascii) :
  Ascii.eqb (lower_ascii a) (lower_ascii b) = same_char_ignoring_case a b.
Proof.
  apply Bool.eqb_prop.
  apply (ascii_forall2 (fun a b =>
    Bool.eqb (Ascii.eqb (lower_ascii a) (lower_ascii b)) (same_char_ignoring_case a b))).
  vm_compute. reflexivity.
Qed.

(** Comparing the lower-cased strings is equality ignoring case. *)
Lemma lower_eqb_ignoring_case (s t : string) :
  String.eqb (lower s) (lower t) = eq_ignoring_case s t.
Proof.
  revert t. induction s as [|a s IH]; intros [|b t]; simpl; try reflexivity.
  rewrite lower_ascii_same_char, IH.
  destruct (same_char_ignoring_case a b); reflexivity.
Qed.

Lemma eq_ignoring_case_lower (s t : string) :
  eq_ignoring_case s t = true <-> lower s = lower t.
Proof.
  rewrite <- lower_eqb_ignoring_case. apply String.eqb_eq.
Qed.

Lemma split_dot_length (s : string) : length (split_dot s) = S (count_dots s).
Proof.
  induction s as [|c s IH]; simpl.
  - reflexivity.
  - destruct (Ascii.eqb c "."%char); simpl.
    + rewrite IH. reflexivity.
    + destruct (split_dot s); simpl in *; [discriminate | exact IH].
Qed.

(** [split_dot] is Python's split: the segments have no dot, and joining
    them with dots gives the string back. *)
Lemma split_dot_join (s : string) : join "." (split_dot s) = s.
Proof.
  unfold join. induction s as [|c s IH]; simpl; [reflexivity|].
  pose proof (split_dot_length s) as Hlen.
  destruct (split_dot s) as [|seg segs]; [discriminate Hlen|].
  destruct (Ascii.eqb c "."%char) eqn:Hc.
  - apply Ascii.eqb_eq in Hc. subst c. rewrite <- IH. reflexivity.
  - destruct segs; simpl in *; rewrite <- IH; reflexivity.
Qed.

Lemma split_dot_segments (s : string) :
  Forall (fun seg => count_dots seg = 0) (split_dot s).
Proof.
  induction s as [|c s IH]; simpl.
  - repeat constructor.
  - destruct (Ascii.eqb c "."%char) eqn:Hc.
    + constructor; [reflexivity | exact IH].
    + destruct (split_dot s) as [|seg segs]; simpl.
      * repeat constructor. simpl. rewrite Hc. reflexivity.
      * inversion IH as [|? ? Hseg Hsegs]; subst.
        constructor; [simpl; rewrite Hc; exact Hseg | exact Hsegs].
Qed.


(** ** The trace of one invocation *)

Lemma issued_app {W} (s : state W) (w : W) (new : list event) :
  issued s {| world := w; trace := trace s ++ new |} = new.
Proof.
  unfold issued. simpl. rewrite skipn_app, Nat.sub_diag, skipn_all. reflexivity.
Qed.

Lemma valid_action_cases (a : string) :
  str_in a valid_actions = true -> a = "START" \/ a = "STOP" \/ a = "RESET".
Proof.
  unfold str_in, valid_actions. simpl. rewrite !orb_true_iff, !String.eqb_eq.
  intros [H | [H | [H | H]]]; auto; discriminate.
Qed.

(** Unfold one invocation of the coordinator down to the oracle calls. *)
Ltac run_coordinator :=
  unfold compute_instance_action, try_except, bind, perform_the_action,
    new_compute_client, ComputeClient, get_instance, instance_action,
    perform, ret, bind.

Ltac finish_run :=
  cbn; rewrite <- ?app_assoc; cbn;
  repeat match goal with
         | |- exists _, _ => eexists
         | |- _ /\ _ => split
         end;
  try reflexivity; rewrite ?issued_app; try reflexivity.

Section Coordinator.

Context {W : Type} (E : Env W).

(** C1 (as amended): when the observed state is RUNNING and the action is
    RESET, a STOP call is dispatched and, as soon as the backend has
    accepted it, a START call, with no state query in between: exactly two
    lifecycle-action calls, STOP then START.  When the observed state is
    STOPPED, exactly one call, START, is dispatched.  In both cases, the
    dispatched calls being accepted, the status is "Action initiated". *)
Theorem reset_dispatch
  (instance_id action : string) (region : option string) (r : string)
  (s : state W) (inst : Instance) (w1 : W) :
  resolve_region instance_id region = Some r ->
  r <> "" ->
  py_upper E action = "RESET" ->
  be_get_instance E (RegionalClient r) instance_id (world s) = (Ok inst, w1) ->
  (lifecycle_state inst = "RUNNING" ->
   forall w2 w3,
     be_instance_action E (RegionalClient r) instance_id "STOP" w1 = (Ok tt, w2) ->
     be_instance_action E (RegionalClient r) instance_id "START" w2 = (Ok tt, w3) ->
     exists j s',
       compute_instance_action E instance_id action region s = Returns j s'
       /\ issued s s' = [get_event r instance_id true;
                         action_event r instance_id "STOP" true;
                         action_event r instance_id "START" true]
       /\ dispatched (issued s s') = ["STOP"; "START"]
       /\ world s' = w3
       /\ status_of j = Some (JStr "Action initiated"))
  /\
  (lifecycle_state inst = "STOPPED" ->
   forall w2,
     be_instance_action E (RegionalClient r) instance_id "START" w1 = (Ok tt, w2) ->
     exists j s',
       compute_instance_action E instance_id action region s = Returns j s'
       /\ issued s s' = [get_event r instance_id true;
                         action_event r instance_id "START" true]
       /\ dispatched (issued s s') = ["START"]
       /\ world s' = w2
       /\ status_of j = Some (JStr "Action initiated")).
Proof.
  intros Hr Hne Ha Hg. apply String.eqb_neq in Hne. split.
  - intros Hs w2 w3 Hstop Hstart.
    run_coordinator. rewrite Hr, Ha. cbn. rewrite Hne. cbn. rewrite Hg, Hs. cbn.
    rewrite Hstop. cbn. rewrite Hstart. finish_run.
  - intros Hs w2 Hstart.
    run_coordinator. rewrite Hr, Ha. cbn. rewrite Hne. cbn. rewrite Hg, Hs. cbn.
    rewrite Hstart. finish_run.
Qed.

(** C2 (as amended): START on an instance observed STOPPED dispatches
    exactly one lifecycle-action call, START, and STOP on an instance
    observed RUNNING dispatches exactly one, STOP, whether or not the
    backend accepts it; when the backend accepts the call the status is
    "Action initiated", and when it rejects the call the result is the
    error object. *)
Theorem start_stop_dispatch
  (instance_id action : string) (region : option string) (r : string)
  (s : state W) (inst : Instance) (w1 : W) (requested observed : string) :
  resolve_region instance_id region = Some r ->
  r <> "" ->
  be_get_instance E (RegionalClient r) instance_id (world s) = (Ok inst, w1) ->
  py_upper E action = requested ->
  lifecycle_state inst = observed ->
  (requested = "START" /\ observed = "STOPPED")
  \/ (requested = "STOP" /\ observed = "RUNNING") ->
  exists j s' ok,
    compute_instance_action E instance_id action region s = Returns j s'
    /\ issued s s' = [get_event r instance_id true;
                      action_event r instance_id requested ok]
    /\ dispatched (issued s s') = [requested]
    /\ match be_instance_action E (RegionalClient r) instance_id requested w1 with
       | (Ok _, w2) =>
           ok = true /\ world s' = w2
           /\ status_of j = Some (JStr "Action initiated")
       | (Err msg, w2) =>
           ok = false /\ world s' = w2
           /\ j = error_json ("Failed to perform instance action: " ++ msg)
       end.
Proof.
  intros Hr Hne Hg Ha Hs [[-> ->] | [-> ->]]; apply String.eqb_neq in Hne;
    run_coordinator; rewrite Hr, Ha; cbn; rewrite Hne; cbn; rewrite Hg, Hs; cbn;
    match goal with
    | |- context [be_instance_action E ?c ?i ?a ?w] =>
        destruct (be_instance_action E c i a w) as [[[] | msg] w2]
    end;
    cbn; rewrite <- ?app_assoc; cbn;
    (do 3 eexists; split; [reflexivity|]; rewrite issued_app;
     repeat split; reflexivity).
Qed.

(** C3 (as amended): START on an instance that is not observed STOPPED,
    and STOP on an instance that is not observed RUNNING, dispatch no
    lifecycle-action call: the only backend call of the invocation is the
    state query, the backend is left as the query left it, and the status
    is "No action needed". *)
Theorem no_action_needed
  (instance_id action : string) (region : option string) (r : string)
  (s : state W) (inst : Instance) (w1 : W) :
  resolve_region instance_id region = Some r ->
  r <> "" ->
  be_get_instance E (RegionalClient r) instance_id (world s) = (Ok inst, w1) ->
  (py_upper E action = "START" /\ lifecycle_state inst <> "STOPPED")
  \/ (py_upper E action = "STOP" /\ lifecycle_state inst <> "RUNNING") ->
  exists j s',
    compute_instance_action E instance_id action region s = Returns j s'
    /\ issued s s' = [get_event r instance_id true]
    /\ dispatched (issued s s') = []
    /\ world s' = w1
    /\ status_of j = Some (JStr "No action needed").
Proof.
  intros Hr Hne Hg [[Ha Hs] | [Ha Hs]]; apply String.eqb_neq in Hs, Hne;
    run_coordinator; rewrite Hr, Ha; cbn; rewrite Hne; cbn; rewrite Hg; cbn;
    rewrite Hs; finish_run.
Qed.

(** C4: RESET on an instance observed neither RUNNING nor STOPPED
    dispatches no lifecycle-action call and has status "Cannot reset". *)
Theorem cannot_reset
  (instance_id action : string) (region : option string) (r : string)
  (s : state W) (inst : Instance) (w1 : W) :
  resolve_region instance_id region = Some r ->
  r <> "" ->
  py_upper E action = "RESET" ->
  be_get_instance E (RegionalClient r) instance_id (world s) = (Ok inst, w1) ->
  lifecycle_state inst <> "RUNNING" ->
  lifecycle_state inst <> "STOPPED" ->
  exists j s',
    compute_instance_action E instance_id action region s = Returns j s'
    /\ dispatched (issued s s') = []
    /\ issued s s' = [get_event r instance_id true]
    /\ world s' = w1
    /\ status_of j = Some (JStr "Cannot reset").
Proof.
  intros Hr Hne Ha Hg H1 H2. apply String.eqb_neq in H1, H2, Hne.
  run_coordinator. rewrite Hr, Ha. cbn. rewrite Hne. cbn. rewrite Hg. cbn.
  rewrite H1, H2. finish_run.
Qed.

(** The shape of every invocation that passes validation: the state query
    comes first, and only lifecycle-action calls on the same instance and
    region follow it. *)
Lemma coordinator_shape (instance_id action : string) (region : option string)
  (r : string) (s : state W) :
  resolve_region instance_id region = Some r ->
  r <> "" ->
  str_in (py_upper E action) valid_actions = true ->
  exists j s' ok rest,
    compute_instance_action E instance_id action region s = Returns j s'
    /\ trace s' = (trace s ++ get_event r instance_id ok :: rest)%list
    /\ Forall (is_action_event_of r instance_id) rest
    /\ (forall inst w1,
          be_get_instance E (RegionalClient r) instance_id (world s) = (Ok inst, w1) ->
          ok = true
          /\ (json_get j "previous_state" = Some (JStr (lifecycle_state inst))
              \/ (is_error_json j /\ some_failed rest = true)))
    /\ (forall msg w1,
          be_get_instance E (RegionalClient r) instance_id (world s) = (Err msg, w1) ->
          ok = false /\ rest = [] /\ is_error_json j).
Proof.
  intros Hr Hne Ha. apply String.eqb_neq in Hne.
  assert (Hev : forall a ok, is_action_event_of r instance_id (action_event r instance_id a ok))
    by (intros; eexists; eexists; reflexivity).
  run_coordinator. rewrite Hr, Ha. cbn. rewrite Hne. cbn.
  destruct (be_get_instance E (RegionalClient r) instance_id (world s))
    as [[inst | msg] w1] eqn:Hg; cbn.
  2:{ do 4 eexists. split; [reflexivity|]. cbn.
      split; [reflexivity|]. split; [constructor|]. split.
      - intros ? ? [=].
      - intros ? ? [= <- <-]. repeat split. eexists; reflexivity. }
  apply valid_action_cases in Ha. destruct Ha as [-> | [-> | ->]]; cbn;
    destruct (lifecycle_state inst =? "STOPPED") eqn:Hstopped;
    destruct (lifecycle_state inst =? "RUNNING") eqn:Hrunning; cbn;
    repeat match goal with
      | |- context [be_instance_action E ?c ?i ?a ?w] =>
          destruct (be_instance_action E c i a w) as [[[] | ?] ?] eqn:?; cbn
      end;
    rewrite <- ?app_assoc; cbn;
    (do 4 eexists; split; [reflexivity|]; cbn; split; [reflexivity|];
     split; [repeat constructor; apply Hev|]; split;
     [ intros ? ? [= <- <-]; split; [reflexivity|];
       first [ left; reflexivity
             | right; split; [eexists; reflexivity | reflexivity] ]
     | intros ? ? [=] ]).
Qed.

End Coordinator.

Section Validation.

Context {W : Type} (E : Env W).

Lemma issued_of_trace (s s' : state W) (new : list event) :
  trace s' = (trace s ++ new)%list -> issued s s' = new.
Proof.
  intros H. unfold issued. rewrite H, skipn_app, Nat.sub_diag, skipn_all. reflexivity.
Qed.

Lemma issued_refl (s : state W) : issued s s = [].
Proof. unfold issued. apply skipn_all. Qed.

Lemma invalid_action_run (instance_id action : string) (region : option string)
  (r : string) (s : state W) :
  resolve_region instance_id region = Some r ->
  r <> "" ->
  str_in (py_upper E action) valid_actions = false ->
  compute_instance_action E instance_id action region s
  = Returns (invalid_action (py_upper E action)) s.
Proof.
  intros Hr Hne Ha. apply String.eqb_neq in Hne.
  run_coordinator. rewrite Hr, Ha. cbn. rewrite Hne. reflexivity.
Qed.

Lemma unresolved_region_run (instance_id action : string) (region : option string)
  (s : state W) :
  resolve_region instance_id region = None ->
  compute_instance_action E instance_id action region s
  = Returns (error_json "Invalid instance_id format. Cannot extract region.") s.
Proof.
  intros Hr. unfold compute_instance_action, try_except. rewrite Hr. reflexivity.
Qed.

(** An empty region: the SDK refuses to build the client, before the action
    is looked at and before any backend call. *)
Lemma client_refused_run (instance_id action : string) (region : option string)
  (s : state W) :
  resolve_region instance_id region = Some "" ->
  compute_instance_action E instance_id action region s
  = Returns
      (error_json
         "Failed to perform instance action: Must supply either a region or an endpoint.")
      s.
Proof.
  intros Hr. run_coordinator. rewrite Hr. reflexivity.
Qed.

Lemma upper_of_valid_action (a : string) :
  ascii_case_mapping E -> str_in a valid_actions = true -> py_upper E a = a.
Proof.
  intros Hascii Ha. apply valid_action_cases in Ha.
  destruct Ha as [-> | [-> | ->]]; apply Hascii; reflexivity.
Qed.

Lemma upper_of_ascii (a : string) :
  ascii_case_mapping E -> is_ascii_string a = true ->
  py_upper E (py_upper E a) = py_upper E a.
Proof.
  intros Hascii Ha. rewrite (proj1 (Hascii a Ha)).
  rewrite (proj1 (Hascii (upper a) (upper_is_ascii a Ha))).
  apply upper_idempotent.
Qed.

(** C6 (as amended): the action argument is upper-cased before it is
    looked at: an invocation with action [a] is the invocation with [a] in
    upper case whenever upper-casing [a] again changes nothing, which is so
    for every ASCII spelling and for every spelling of START, STOP or
    RESET; "start", "Start" and "START" are one request; and, a non-empty
    region being supplied or taken from the identifier, an action whose
    upper-case form is not START, STOP or RESET yields the error object
    whose message names the action and lists START, STOP, RESET, with no
    backend call. *)
Theorem action_is_case_insensitive
  (instance_id action : string) (region : option string) (s : state W) :
  (py_upper E (py_upper E action) = py_upper E action ->
   compute_instance_action E instance_id action region s
   = compute_instance_action E instance_id (py_upper E action) region s)
  /\ (ascii_case_mapping E ->
      (is_ascii_string action = true
       \/ str_in (py_upper E action) valid_actions = true ->
       compute_instance_action E instance_id action region s
       = compute_instance_action E instance_id (py_upper E action) region s)
      /\ compute_instance_action E instance_id "start" region s
         = compute_instance_action E instance_id "START" region s
      /\ compute_instance_action E instance_id "Start" region s
         = compute_instance_action E instance_id "START" region s)
  /\ (forall r,
        resolve_region instance_id region = Some r ->
        r <> "" ->
        str_in (py_upper E action) valid_actions = false ->
        compute_instance_action E instance_id action region s
        = Returns
            (error_json ("Invalid action '" ++ py_upper E action
                         ++ "'. Valid actions are: START, STOP, RESET")) s).
Proof.
  assert (Hstable : forall a,
             py_upper E (py_upper E a) = py_upper E a ->
             compute_instance_action E instance_id a region s
             = compute_instance_action E instance_id (py_upper E a) region s)
    by (intros a Ha; unfold compute_instance_action; rewrite Ha; reflexivity).
  assert (Hsame : forall a b,
             py_upper E a = py_upper E b ->
             compute_instance_action E instance_id a region s
             = compute_instance_action E instance_id b region s)
    by (intros a b Hab; unfold compute_instance_action; rewrite Hab; reflexivity).
  split; [apply Hstable|]. split.
  - intros Hascii. split; [|split].
    + intros [Ha | Ha]; apply Hstable.
      * apply upper_of_ascii; assumption.
      * apply upper_of_valid_action; assumption.
    + apply Hsame. rewrite (proj1 (Hascii "start" eq_refl)).
      rewrite (proj1 (Hascii "START" eq_refl)). reflexivity.
    + apply Hsame. rewrite (proj1 (Hascii "Start" eq_refl)).
      rewrite (proj1 (Hascii "START" eq_refl)). reflexivity.
  - intros r Hr Hne Ha. rewrite (invalid_action_run _ _ _ r) by assumption. reflexivity.
Qed.

(** The segments of an identifier up to the fourth. *)
Lemma fourth_segment (instance_id segment : string) :
  nth_error (split_dot instance_id) 3 = Some segment ->
  exists a b c rest,
    split_dot instance_id = a :: b :: c :: segment :: rest
    /\ instance_id = join "." (a :: b :: c :: segment :: rest)
    /\ count_dots segment = 0.
Proof.
  intros Hseg. pose proof (split_dot_join instance_id) as Hjoin.
  pose proof (split_dot_segments instance_id) as Hdots.
  destruct (split_dot instance_id) as [|a [|b [|c [|d rest]]]]; try discriminate.
  simpl in Hseg. injection Hseg as ->.
  exists a, b, c, rest. split; [reflexivity|]. split; [symmetry; exact Hjoin|].
  inversion Hdots as [|? ? _ H1]; subst. inversion H1 as [|? ? _ H2]; subst.
  inversion H2 as [|? ? _ H3]; subst. inversion H3 as [|? ? H4 _]; subst. exact H4.
Qed.

(** C7: when no region is given, the region is the 4th dot-delimited
    segment of the identifier: the identifier is its segments joined by
    dots, and for a valid action the state query is made through the
    client of that segment ("iad" for "ocid1.instance.oc1.iad.xyz"), as
    is every call after it; an empty 4th segment is taken as the region
    too, and the SDK then refuses to build the client; an identifier with
    fewer than 4 segments yields the error object "Invalid instance_id
    format. Cannot extract region." and no backend call is made. *)
Theorem region_from_identifier
  (instance_id action : string) (region : option string) (s : state W) :
  truthy region = false ->
  (forall segment,
      nth_error (split_dot instance_id) 3 = Some segment ->
      (exists a b c rest,
          split_dot instance_id = a :: b :: c :: segment :: rest
          /\ instance_id = join "." (a :: b :: c :: segment :: rest)
          /\ count_dots segment = 0)
      /\ (segment <> "" ->
          str_in (py_upper E action) valid_actions = true ->
          exists j s' ok rest,
            compute_instance_action E instance_id action region s = Returns j s'
            /\ issued s s' = get_event segment instance_id ok :: rest
            /\ Forall (is_action_event_of segment instance_id) rest)
      /\ (segment <> "" ->
          str_in (py_upper E action) valid_actions = false ->
          compute_instance_action E instance_id action region s
          = Returns (invalid_action (py_upper E action)) s)
      /\ (segment = "" ->
          compute_instance_action E instance_id action region s
          = Returns
              (error_json
                 "Failed to perform instance action: Must supply either a region or an endpoint.")
              s))
  /\ (nth_error (split_dot "ocid1.instance.oc1.iad.xyz") 3 = Some "iad")
  /\ (length (split_dot instance_id) < 4 ->
      compute_instance_action E instance_id action region s
      = Returns (error_json "Invalid instance_id format. Cannot extract region.") s
      /\ issued s s = []).
Proof.
  intros Hregion.
  assert (Hres : resolve_region instance_id region = nth_error (split_dot instance_id) 3)
    by (unfold resolve_region; rewrite Hregion; reflexivity).
  split; [|split; [reflexivity|]].
  - intros segment Hseg. split; [apply fourth_segment; exact Hseg|].
    rewrite <- Hres in Hseg. split; [|split].
    + intros Hne Ha.
      destruct (coordinator_shape E _ _ _ _ s Hseg Hne Ha)
        as (j & s' & ok & rest & Hrun & Htrace & Hrest & _).
      exists j, s', ok, rest. split; [exact Hrun|].
      split; [apply issued_of_trace; exact Htrace | exact Hrest].
    + intros Hne Ha. apply (invalid_action_run _ _ _ _ s Hseg Hne Ha).
    + intros ->. apply client_refused_run. exact Hseg.
  - intros Hlen. split.
    + apply unresolved_region_run. rewrite Hres. apply nth_error_None. lia.
    + apply issued_refl.
Qed.

(** C8 (as amended): on every invocation that passes validation and whose
    region is not empty, the first backend call is the state query
    [get_instance], made on the backend as it is when the invocation
    starts; only lifecycle-action calls follow it; and the previous_state
    member of the returned Action Result is the lifecycle state that query
    observed.  (When the query fails nothing is dispatched; when a
    dispatched call fails the error object is returned in place of an
    Action Result.) *)
Theorem state_queried_before_dispatch
  (instance_id action : string) (region : option string) (r : string) (s : state W) :
  resolve_region instance_id region = Some r ->
  r <> "" ->
  str_in (py_upper E action) valid_actions = true ->
  exists j s' ok rest,
    compute_instance_action E instance_id action region s = Returns j s'
    /\ issued s s' = get_event r instance_id ok :: rest
    /\ Forall (is_action_event_of r instance_id) rest
    /\ match be_get_instance E (RegionalClient r) instance_id (world s) with
       | (Ok inst, _) =>
           ok = true
           /\ (json_get j "previous_state" = Some (JStr (lifecycle_state inst))
               \/ (is_error_json j /\ some_failed rest = true))
       | (Err _, _) => ok = false /\ rest = [] /\ is_error_json j
       end.
Proof.
  intros Hr Hne Ha.
  destruct (coordinator_shape E _ _ _ _ s Hr Hne Ha)
    as (j & s' & ok & rest & Hrun & Htrace & Hrest & Hok & Herr).
  exists j, s', ok, rest. split; [exact Hrun|].
  split; [apply issued_of_trace; exact Htrace|]. split; [exact Hrest|].
  destruct (be_get_instance E (RegionalClient r) instance_id (world s))
    as [[inst | msg] w1] eqn:Hg.
  - apply (Hok inst w1). reflexivity.
  - apply (Herr msg w1). reflexivity.
Qed.

End Validation.

(** ** Compartments: pagination and the root compartment *)

Section Compartments.

Context {W : Type} (E : Env W).

Lemma find_after_misses {A} (p : A -> bool) (l : list A) (x : A) :
  p x = true -> (forall y, In y l -> p y = false) -> find p (l ++ [x]) = Some x.
Proof.
  intros Hx Hl. induction l as [|y l IH]; simpl.
  - rewrite Hx. reflexivity.
  - rewrite (Hl y) by (left; reflexivity).
    apply IH. intros z Hz. apply Hl. right. exact Hz.
Qed.

Lemma truthy_page (page : option string) :
  truthy page = true -> (if truthy page then page else None) = page.
Proof. intros H. rewrite H. reflexivity. Qed.

(** Whatever the loop returns is the data of the pages served from its
    starting token, in order, and its calls are the fetches of those pages. *)
Lemma loop_returns_pages (fuel : nat) :
  forall page acc (s : state W) l s',
    get_all_compartments_loop E fuel page acc s = Returns l s' ->
    exists responses,
      pagination E (if truthy page then page else None) (world s) responses (world s')
      /\ l = (acc ++ page_data responses)%list
      /\ trace s' = (trace s ++ page_events (tenancy_id E)
                                  (if truthy page then page else None) responses)%list.
Proof.
  induction fuel as [|fuel IH]; intros page acc s l s' Hrun; simpl in Hrun.
  - discriminate.
  - unfold bind, identity_list_compartments, perform in Hrun.
    destruct (be_list_compartments E (tenancy_id E)
                (if truthy page then page else None) (world s))
      as [[response | msg] w'] eqn:Hcall; [|discriminate].
    destruct (truthy (next_page response)) eqn:Hnext; simpl in Hrun.
    + apply IH in Hrun. destruct Hrun as (responses & Hpages & -> & Htrace).
      rewrite (truthy_page _ Hnext) in Hpages, Htrace. simpl in Hpages, Htrace.
      exists (response :: responses). split; [|split].
      * eapply pagination_next; eassumption.
      * unfold page_data. simpl. rewrite app_assoc. reflexivity.
      * rewrite Htrace, <- app_assoc. reflexivity.
    + unfold ret in Hrun. injection Hrun as <- <-.
      exists [response]. split; [|split].
      * eapply pagination_last; eassumption.
      * unfold page_data. simpl. rewrite app_nil_r. reflexivity.
      * reflexivity.
Qed.

(** With at least as much fuel as there are pages, the loop returns. *)
Lemma loop_enough_fuel (page : option string) (w : W) (responses : list ListResponse) (w' : W) :
  pagination E page w responses w' ->
  forall fuel p acc (s : state W),
    (if truthy p then p else None) = page ->
    world s = w ->
    length responses <= fuel ->
    get_all_compartments_loop E fuel p acc s
    = Returns (acc ++ page_data responses)%list
        {| world := w';
           trace := trace s ++ page_events (tenancy_id E) page responses |}.
Proof.
  induction 1 as [page w response w' Hcall Hnext
                 | page w response w' responses w'' Hcall Hnext Hrest IH];
    intros fuel p acc s Hp Hw Hfuel;
    (destruct fuel as [|fuel]; [simpl in Hfuel; lia|]);
    simpl; unfold bind, identity_list_compartments, perform;
    rewrite Hp, Hw, Hcall, Hnext; simpl.
  - unfold ret, page_data. simpl. rewrite app_nil_r. reflexivity.
  - erewrite IH;
      [ | apply truthy_page; exact Hnext | reflexivity | simpl in Hfuel; lia ].
    simpl. unfold page_data. simpl. rewrite <- !app_assoc. reflexivity.
Qed.

Lemma get_all_compartments_returns (fuel : nat) (s : state W) l s' :
  get_all_compartments E fuel s = Returns l s' ->
  exists responses root w1,
    pagination E None (world s) responses w1
    /\ be_get_compartment E (tenancy_id E) w1 = (Ok root, world s')
    /\ l = (page_data responses ++ [root])%list
    /\ trace s' = (trace s ++ page_events (tenancy_id E) None responses ++ [root_event (tenancy_id E)])%list.
Proof.
  unfold get_all_compartments, bind. intros Hrun.
  destruct (get_all_compartments_loop E fuel None [] s) as [l0 s0 | |] eqn:Hloop;
    try discriminate.
  apply loop_returns_pages in Hloop. simpl in Hloop.
  destruct Hloop as (responses & Hpages & -> & Htrace).
  unfold identity_get_compartment, perform in Hrun.
  destruct (be_get_compartment E (tenancy_id E) (world s0)) as [[root | msg] w2] eqn:Hroot;
    [|discriminate].
  unfold ret in Hrun. injection Hrun as <- <-.
  exists responses, root, (world s0). simpl.
  split; [exact Hpages|]. split; [exact Hroot|]. split; [reflexivity|].
  rewrite Htrace, <- app_assoc. reflexivity.
Qed.

Lemma get_all_compartments_enough_fuel
  (fuel : nat) (s : state W) responses w1 root w2 :
  pagination E None (world s) responses w1 ->
  be_get_compartment E (tenancy_id E) w1 = (Ok root, w2) ->
  length responses <= fuel ->
  get_all_compartments E fuel s
  = Returns (page_data responses ++ [root])%list
      {| world := w2;
         trace := trace s ++ page_events (tenancy_id E) None responses ++ [root_event (tenancy_id E)] |}.
Proof.
  intros Hpages Hroot Hfuel. unfold get_all_compartments, bind.
  rewrite (loop_enough_fuel _ _ _ _ Hpages fuel None [] s eq_refl eq_refl Hfuel).
  unfold identity_get_compartment, perform. simpl. rewrite Hroot.
  unfold ret. simpl. rewrite <- app_assoc. reflexivity.
Qed.

(** C9: a successful call to list_compartments returns the compartments of
    all the pages followed by the root compartment, which is fetched by a
    separate [get_compartment] call on the tenancy after the last page and
    is the last element of the list; name resolution searches that same
    list, so it finds the root compartment when no listed compartment
    matches; and whenever the pagination ends and the root is served, the
    call is successful once the fuel covers the pages. *)
Theorem root_compartment_is_listed (fuel : nat) (s : state W) :
  (forall j s',
      list_compartments E fuel s = Returns j s' ->
      is_error_jsonb j = false ->
      exists responses root w1,
        pagination E None (world s) responses w1
        /\ be_get_compartment E (tenancy_id E) w1 = (Ok root, world s')
        /\ j = JArr (map compartment_json (page_data responses ++ [root]))
        /\ last (map compartment_json (page_data responses ++ [root])) JNull
           = compartment_json root
        /\ issued s s'
           = (page_events (tenancy_id E) None responses ++ [root_event (tenancy_id E)])%list
        /\ (forall name,
              get_compartment_by_name E fuel name s
              = Returns (find (compartment_matches E name)
                           (page_data responses ++ [root])) s')
        /\ (forall name,
              compartment_matches E name root = true ->
              (forall c, In c (page_data responses) -> compartment_matches E name c = false) ->
              get_compartment_by_name E fuel name s = Returns (Some root) s'))
  /\
  (forall responses w1 root w2,
      pagination E None (world s) responses w1 ->
      be_get_compartment E (tenancy_id E) w1 = (Ok root, w2) ->
      length responses <= fuel ->
      list_compartments E fuel s
      = Returns (JArr (map compartment_json (page_data responses ++ [root])))
          {| world := w2;
             trace := trace s ++ page_events (tenancy_id E) None responses
                              ++ [root_event (tenancy_id E)] |}).
Proof.
  split.
  - intros j s' Hrun Hok.
    unfold list_compartments, try_except, bind in Hrun.
    destruct (get_all_compartments E fuel s) as [l s1 | msg s1 |] eqn:Hall;
      [| unfold ret in Hrun; injection Hrun as <- <-; discriminate | discriminate].
    unfold ret in Hrun. injection Hrun as <- <-.
    destruct (get_all_compartments_returns _ _ _ _ Hall)
      as (responses & root & w1 & Hpages & Hroot & -> & Htrace).
    exists responses, root, w1.
    assert (Hname : forall name,
               get_compartment_by_name E fuel name s
               = Returns (find (compartment_matches E name)
                            (page_data responses ++ [root])) s1)
      by (intros name; unfold get_compartment_by_name, bind; rewrite Hall; reflexivity).
    split; [exact Hpages|]. split; [exact Hroot|]. split; [reflexivity|].
    split; [|split; [|split; [exact Hname|]]].
    + rewrite map_app. simpl. apply last_last.
    + apply issued_of_trace. exact Htrace.
    + intros name Hmatch Hnone. rewrite Hname. f_equal.
      apply find_after_misses; assumption.
  - intros responses w1 root w2 Hpages Hroot Hfuel.
    unfold list_compartments, try_except, bind.
    rewrite (get_all_compartments_enough_fuel _ _ _ _ _ _ Hpages Hroot Hfuel).
    reflexivity.
Qed.

End Compartments.

(** ** Lookup by name *)

Lemma find_first_such {A} (p : A -> bool) (l : list A) (x : A) :
  find p l = Some x <-> first_such p l x.
Proof.
  split.
  - induction l as [|a l IH]; simpl; [discriminate|].
    destruct (p a) eqn:Ha.
    + intros [= <-]. exists [], l. repeat split; [exact Ha | intros y []].
    + intros H. destruct (IH H) as (before & after & -> & Hx & Hbefore).
      exists (a :: before), after. repeat split; [exact Hx|].
      intros y [<- | Hy]; [exact Ha | apply Hbefore; exact Hy].
  - intros (before & after & -> & Hx & Hbefore).
    induction before as [|a before IH]; simpl.
    + rewrite Hx. reflexivity.
    + rewrite (Hbefore a) by (left; reflexivity).
      apply IH. intros y Hy. apply Hbefore. right. exact Hy.
Qed.

Lemma find_pointwise {A} (p q : A -> bool) (l : list A) :
  (forall x, p x = q x) -> find p l = find q l.
Proof.
  intros H. induction l as [|a l IH]; simpl; [reflexivity|].
  rewrite H, IH. reflexivity.
Qed.

Section Lookup.

Context {W : Type} (E : Env W).

(** On ASCII names, comparing the lower-cased forms is equality ignoring
    the case of letters. *)
Lemma lowered_ascii (a b : string) :
  ascii_case_mapping E ->
  is_ascii_string a = true -> is_ascii_string b = true ->
  String.eqb (py_lower E a) (py_lower E b) = eq_ignoring_case a b.
Proof.
  intros Hascii Ha Hb.
  rewrite (proj2 (Hascii a Ha)), (proj2 (Hascii b Hb)).
  apply lower_eqb_ignoring_case.
Qed.

Lemma get_compute_instance_returns (instance_id : string) (region : option string)
  (s : state W) :
  exists j s', get_compute_instance E instance_id region s = Returns j s'.
Proof.
  unfold get_compute_instance, try_except, bind, get_instance, perform, ret.
  destruct (be_get_instance E (client_for region) instance_id (world s)) as [[inst | msg] w'];
    do 2 eexists; reflexivity.
Qed.

(** The run of get_compute_instance_by_name once the compartment is
    resolved and its instances are listed. *)
Lemma by_name_after_listing (fuel : nat) (instance_name compartment_name : string)
  (region : option string) (s : state W) c s1 instances w2 :
  get_compartment_by_name E fuel compartment_name s = Returns (Some c) s1 ->
  be_list_instances E (client_for region) (comp_id c) (world s1) = (Ok instances, w2) ->
  get_compute_instance_by_name E fuel instance_name compartment_name region s
  = match find (instance_matches E instance_name) instances with
    | Some instance =>
        get_compute_instance E (inst_id instance) region
          {| world := w2;
             trace := trace s1 ++ [{| ev_call := ListInstances (client_for region) (comp_id c);
                                      ev_ok := true |}] |}
    | None =>
        Returns (instance_not_found instance_name compartment_name)
          {| world := w2;
             trace := trace s1 ++ [{| ev_call := ListInstances (client_for region) (comp_id c);
                                      ev_ok := true |}] |}
    end.
Proof.
  intros Hc Hl. unfold get_compute_instance_by_name, try_except, bind.
  rewrite Hc. unfold list_instances, perform. rewrite Hl.
  destruct (find (instance_matches E instance_name) instances) as [i|]; [|reflexivity].
  match goal with
  | |- context [get_compute_instance E ?a ?b ?c] =>
      destruct (get_compute_instance_returns a b c) as (j & s' & ->)
  end.
  reflexivity.
Qed.

(** C10 (as amended): both name lookups compare the lower-cased forms of
    the names.  get_compartment_by_name returns the first compartment of
    the listing whose lower-cased name equals the lower-cased argument;
    get_compute_instance_by_name answers for the first listed instance
    whose lower-cased display name equals the lower-cased argument; and
    replacing the name by one with the same lower-cased form changes
    neither lookup (when no instance matches, the error object quotes the
    name as it was given).  For ASCII names the comparison is equality
    ignoring the case of letters, so any change of letter case leaves both
    lookups unchanged. *)
Theorem name_lookup_ignores_case
  (fuel : nat) (name name' compartment_name : string) (region : option string) :
  (forall (s : state W) compartments s1,
      get_all_compartments E fuel s = Returns compartments s1 ->
      get_compartment_by_name E fuel name s
      = Returns (find (compartment_matches E name) compartments) s1
      /\ forall c, find (compartment_matches E name) compartments = Some c
                   <-> first_such (compartment_matches E name) compartments c)
  /\
  (forall (s : state W) c s1 instances w2,
      get_compartment_by_name E fuel compartment_name s = Returns (Some c) s1 ->
      be_list_instances E (client_for region) (comp_id c) (world s1) = (Ok instances, w2) ->
      (forall i,
          first_such (instance_matches E name) instances i ->
          get_compute_instance_by_name E fuel name compartment_name region s
          = get_compute_instance E (inst_id i) region
              {| world := w2;
                 trace := trace s1
                          ++ [{| ev_call := ListInstances (client_for region) (comp_id c);
                                 ev_ok := true |}] |})
      /\ ((forall i, In i instances -> instance_matches E name i = false) ->
          get_compute_instance_by_name E fuel name compartment_name region s
          = Returns (instance_not_found name compartment_name)
              {| world := w2;
                 trace := trace s1
                          ++ [{| ev_call := ListInstances (client_for region) (comp_id c);
                                 ev_ok := true |}] |}))
  /\
  (py_lower E name = py_lower E name' ->
   (forall s : state W,
       get_compartment_by_name E fuel name s = get_compartment_by_name E fuel name' s)
   /\ (forall s : state W,
         get_compute_instance_by_name E fuel name compartment_name region s
         = get_compute_instance_by_name E fuel name' compartment_name region s
         \/ exists s',
             get_compute_instance_by_name E fuel name compartment_name region s
             = Returns (instance_not_found name compartment_name) s'
             /\ get_compute_instance_by_name E fuel name' compartment_name region s
                = Returns (instance_not_found name' compartment_name) s'))
  /\
  (ascii_case_mapping E ->
   is_ascii_string name = true ->
   (forall c, is_ascii_string (comp_name c) = true ->
              compartment_matches E name c = eq_ignoring_case (comp_name c) name)
   /\ (forall i, is_ascii_string (display_name i) = true ->
                 instance_matches E name i = eq_ignoring_case (display_name i) name)
   /\ (is_ascii_string name' = true ->
       eq_ignoring_case name name' = true ->
       py_lower E name = py_lower E name')).
Proof.
  split; [|split; [|split]].
  - intros s compartments s1 Hall. split.
    + unfold get_compartment_by_name, bind. rewrite Hall. reflexivity.
    + intros c. apply find_first_such.
  - intros s c s1 instances w2 Hc Hl.
    rewrite (by_name_after_listing _ _ _ _ _ _ _ _ _ Hc Hl).
    split.
    + intros i Hi. apply find_first_such in Hi. rewrite Hi. reflexivity.
    + intros Hnone.
      destruct (find (instance_matches E name) instances) as [i|] eqn:Hfind;
        [|reflexivity].
      apply find_some in Hfind. destruct Hfind as [Hin Hi].
      rewrite (Hnone i Hin) in Hi. discriminate.
  - intros Hcase. split.
    + intros s. unfold get_compartment_by_name, compartment_matches.
      rewrite Hcase. reflexivity.
    + intros s.
      assert (Hfind : forall l, find (instance_matches E name) l
                                = find (instance_matches E name') l)
        by (intros l; unfold instance_matches; rewrite Hcase; reflexivity).
      destruct (get_compartment_by_name E fuel compartment_name s)
        as [[c|] s1 | msg s1 |] eqn:Hc;
        try (left; unfold get_compute_instance_by_name, try_except, bind;
             rewrite Hc; reflexivity).
      destruct (be_list_instances E (client_for region) (comp_id c) (world s1))
        as [[instances | msg] w2] eqn:Hl.
      * rewrite !(by_name_after_listing _ _ _ _ _ _ _ _ _ Hc Hl), Hfind.
        destruct (find (instance_matches E name') instances);
          [left; reflexivity | right; eexists; split; reflexivity].
      * left. unfold get_compute_instance_by_name, try_except, bind.
        rewrite Hc. unfold list_instances, perform. rewrite Hl. reflexivity.
  - intros Hascii Hname. split; [|split].
    + intros c Hc. apply lowered_ascii; assumption.
    + intros i Hi. apply lowered_ascii; assumption.
    + intros Hname' Hsame.
      apply String.eqb_eq. rewrite lowered_ascii by assumption. exact Hsame.
Qed.

End Lookup.

(** ** The error contract *)


Section ErrorContract.

Context {W : Type} (E : Env W).




















(** *** Results that render as JSON text *)













End ErrorContract.

(** ** The theorems at work on the mock backends *)

Lemma iad_not_empty : "iad" <> "".
Proof. discriminate. Qed.

Lemma mock_ascii_case_mapping (rejected : list string) :
  ascii_case_mapping (Mock.env rejected).
Proof. intros s _. split; reflexivity. Qed.

(** RESET of a RUNNING and of a STOPPED instance, every call accepted. *)
Lemma reset_dispatch_witness :
  (exists j s',
      compute_instance_action (Mock.env []) Mock.abc123 "reset" None (Mock.start "RUNNING")
      = Returns j s'
      /\ issued (Mock.start "RUNNING") s'
         = [get_event "iad" Mock.abc123 true;
            action_event "iad" Mock.abc123 "STOP" true;
            action_event "iad" Mock.abc123 "START" true]
      /\ dispatched (issued (Mock.start "RUNNING") s') = ["STOP"; "START"]
      /\ world s' = "STARTING"
      /\ status_of j = Some (JStr "Action initiated"))
  /\
  (exists j s',
      compute_instance_action (Mock.env []) Mock.abc123 "reset" None (Mock.start "STOPPED")
      = Returns j s'
      /\ issued (Mock.start "STOPPED") s'
         = [get_event "iad" Mock.abc123 true;
            action_event "iad" Mock.abc123 "START" true]
      /\ dispatched (issued (Mock.start "STOPPED") s') = ["START"]
      /\ world s' = "STARTING"
      /\ status_of j = Some (JStr "Action initiated")).
Proof.
  split.
  - apply (proj1 (reset_dispatch (Mock.env []) Mock.abc123 "reset" None "iad"
                    (Mock.start "RUNNING") (Mock.instance_in_state Mock.abc123 "RUNNING")
                    "RUNNING" eq_refl iad_not_empty eq_refl eq_refl)
             eq_refl "STOPPING" "STARTING" eq_refl eq_refl).
  - apply (proj2 (reset_dispatch (Mock.env []) Mock.abc123 "reset" None "iad"
                    (Mock.start "STOPPED") (Mock.instance_in_state Mock.abc123 "STOPPED")
                    "STOPPED" eq_refl iad_not_empty eq_refl eq_refl)
             eq_refl "STARTING" eq_refl).
Defined.

(** The claim of C1 as stated fails when the backend rejects the STOP call:
    the instance is observed RUNNING and RESET is requested, yet START is
    never dispatched and the result carries no status. *)
Lemma reset_stop_rejected_counterexample :
  be_get_instance (Mock.env ["STOP"]) (RegionalClient "iad") Mock.abc123 "RUNNING"
  = (Ok (Mock.instance_in_state Mock.abc123 "RUNNING"), "RUNNING")
  /\ lifecycle_state (Mock.instance_in_state Mock.abc123 "RUNNING") = "RUNNING"
  /\ ~ (exists j s',
          compute_instance_action (Mock.env ["STOP"]) Mock.abc123 "RESET" None
            (Mock.start "RUNNING") = Returns j s'
          /\ dispatched (issued (Mock.start "RUNNING") s') = ["STOP"; "START"]
          /\ status_of j = Some (JStr "Action initiated")).
Proof.
  split; [reflexivity|]. split; [reflexivity|].
  intros (j & s' & Hrun & Hcalls & Hstatus).
  vm_compute in Hrun. injection Hrun as <- <-.
  vm_compute in Hcalls. discriminate Hcalls.
Qed.

(** The scenario of the specification, "stop" on a RUNNING instance; and
    START on a STOPPED instance when the backend rejects the call. *)
Lemma start_stop_dispatch_witness :
  (exists j s' ok,
      compute_instance_action (Mock.env []) Mock.abc123 "stop" None (Mock.start "RUNNING")
      = Returns j s'
      /\ issued (Mock.start "RUNNING") s'
         = [get_event "iad" Mock.abc123 true; action_event "iad" Mock.abc123 "STOP" ok]
      /\ dispatched (issued (Mock.start "RUNNING") s') = ["STOP"]
      /\ ok = true /\ world s' = "STOPPING"
      /\ status_of j = Some (JStr "Action initiated"))
  /\
  (exists j s' ok,
      compute_instance_action (Mock.env ["START"]) Mock.abc123 "start" None
        (Mock.start "STOPPED") = Returns j s'
      /\ issued (Mock.start "STOPPED") s'
         = [get_event "iad" Mock.abc123 true; action_event "iad" Mock.abc123 "START" ok]
      /\ dispatched (issued (Mock.start "STOPPED") s') = ["START"]
      /\ ok = false /\ world s' = "STOPPED"
      /\ j = error_json "Failed to perform instance action: 409 Conflict").
Proof.
  split.
  - apply (start_stop_dispatch (Mock.env []) Mock.abc123 "stop" None "iad"
             (Mock.start "RUNNING") (Mock.instance_in_state Mock.abc123 "RUNNING")
             "RUNNING" "STOP" "RUNNING"
             eq_refl iad_not_empty eq_refl eq_refl eq_refl
             (or_intror (conj eq_refl eq_refl))).
  - apply (start_stop_dispatch (Mock.env ["START"]) Mock.abc123 "start" None "iad"
             (Mock.start "STOPPED") (Mock.instance_in_state Mock.abc123 "STOPPED")
             "STOPPED" "START" "STOPPED"
             eq_refl iad_not_empty eq_refl eq_refl eq_refl
             (or_introl (conj eq_refl eq_refl))).
Defined.

(** The claim of C2 as stated fails when the backend rejects the START
    call: the instance is observed STOPPED and START is requested, yet the
    result is the error object, without a status. *)
Lemma start_rejected_counterexample :
  be_get_instance (Mock.env ["START"]) (RegionalClient "iad") Mock.abc123 "STOPPED"
  = (Ok (Mock.instance_in_state Mock.abc123 "STOPPED"), "STOPPED")
  /\ lifecycle_state (Mock.instance_in_state Mock.abc123 "STOPPED") = "STOPPED"
  /\ ~ (exists j s',
          compute_instance_action (Mock.env ["START"]) Mock.abc123 "START" None
            (Mock.start "STOPPED") = Returns j s'
          /\ dispatched (issued (Mock.start "STOPPED") s') = ["START"]
          /\ status_of j = Some (JStr "Action initiated")).
Proof.
  split; [reflexivity|]. split; [reflexivity|].
  intros (j & s' & Hrun & Hcalls & Hstatus).
  vm_compute in Hrun. injection Hrun as <- <-.
  vm_compute in Hstatus. discriminate Hstatus.
Qed.

(** The scenario of the specification: "STOP" on a STOPPED instance. *)
Lemma no_action_needed_witness :
  exists j s',
    compute_instance_action (Mock.env []) Mock.abc123 "STOP" None (Mock.start "STOPPED")
    = Returns j s'
    /\ issued (Mock.start "STOPPED") s' = [get_event "iad" Mock.abc123 true]
    /\ dispatched (issued (Mock.start "STOPPED") s') = []
    /\ world s' = "STOPPED"
    /\ status_of j = Some (JStr "No action needed").
Proof.
  apply (no_action_needed (Mock.env []) Mock.abc123 "STOP" None "iad"
           (Mock.start "STOPPED") (Mock.instance_in_state Mock.abc123 "STOPPED") "STOPPED"
           eq_refl iad_not_empty eq_refl).
  right. split; [reflexivity | discriminate].
Defined.

(** The claim of C3 as stated fails on every such invocation: START on a
    PROVISIONING instance has status "No action needed", but one backend
    call, the state query, was issued. *)
Lemma state_query_is_issued_counterexample :
  be_get_instance (Mock.env []) (RegionalClient "iad") Mock.abc123 "PROVISIONING"
  = (Ok (Mock.instance_in_state Mock.abc123 "PROVISIONING"), "PROVISIONING")
  /\ lifecycle_state (Mock.instance_in_state Mock.abc123 "PROVISIONING") = "PROVISIONING"
  /\ ~ (exists j s',
          compute_instance_action (Mock.env []) Mock.abc123 "START" None
            (Mock.start "PROVISIONING") = Returns j s'
          /\ status_of j = Some (JStr "No action needed")
          /\ issued (Mock.start "PROVISIONING") s' = []).
Proof.
  split; [reflexivity|]. split; [reflexivity|].
  intros (j & s' & Hrun & Hstatus & Hcalls).
  vm_compute in Hrun. injection Hrun as <- <-.
  vm_compute in Hcalls. discriminate Hcalls.
Qed.

Lemma cannot_reset_witness :
  exists j s',
    compute_instance_action (Mock.env []) Mock.abc123 "Reset" None
      (Mock.start "PROVISIONING") = Returns j s'
    /\ dispatched (issued (Mock.start "PROVISIONING") s') = []
    /\ issued (Mock.start "PROVISIONING") s' = [get_event "iad" Mock.abc123 true]
    /\ world s' = "PROVISIONING"
    /\ status_of j = Some (JStr "Cannot reset").
Proof.
  apply (cannot_reset (Mock.env []) Mock.abc123 "Reset" None "iad"
           (Mock.start "PROVISIONING")
           (Mock.instance_in_state Mock.abc123 "PROVISIONING") "PROVISIONING"
           eq_refl iad_not_empty eq_refl eq_refl); discriminate.
Defined.


(** "launch" with a well-formed identifier; "stop" and "STOP". *)
Lemma action_is_case_insensitive_witness :
  compute_instance_action (Mock.env []) Mock.abc123 "launch" None (Mock.start "RUNNING")
  = Returns (error_json "Invalid action 'LAUNCH'. Valid actions are: START, STOP, RESET")
      (Mock.start "RUNNING")
  /\ compute_instance_action (Mock.env []) Mock.abc123 "stop" None (Mock.start "RUNNING")
     = compute_instance_action (Mock.env []) Mock.abc123 "STOP" None (Mock.start "RUNNING").
Proof.
  split.
  - apply (proj2 (proj2
             (action_is_case_insensitive (Mock.env []) Mock.abc123 "launch" None
                (Mock.start "RUNNING"))) "iad");
      [reflexivity | exact iad_not_empty | reflexivity].
  - apply (proj1 (proj1 (proj2
             (action_is_case_insensitive (Mock.env []) Mock.abc123 "stop" None
                (Mock.start "RUNNING"))) (mock_ascii_case_mapping [])) (or_introl eq_refl)).
Defined.

(** The claim of C6 as stated fails when the identifier has no region
    segment and no region is given: "LAUNCH" is then answered by the
    identifier error, which does not list the valid actions. *)
Lemma invalid_action_counterexample :
  str_in (py_upper (Mock.env []) "LAUNCH") valid_actions = false
  /\ compute_instance_action (Mock.env []) "ocid1.instance" "LAUNCH" None (Mock.start "RUNNING")
     = Returns (error_json "Invalid instance_id format. Cannot extract region.")
         (Mock.start "RUNNING")
  /\ ~ (exists s',
          compute_instance_action (Mock.env []) "ocid1.instance" "LAUNCH" None
            (Mock.start "RUNNING")
          = Returns (invalid_action (py_upper (Mock.env []) "LAUNCH")) s').
Proof.
  split; [reflexivity|]. split; [reflexivity|].
  intros (s' & Hrun). vm_compute in Hrun. discriminate Hrun.
Qed.

(** An identifier of five segments, whose state is queried in "iad"; and
    an identifier of two segments; no region given. *)
Lemma region_from_identifier_witness :
  (exists j s' ok rest,
      compute_instance_action (Mock.env []) "ocid1.instance.oc1.iad.xyz" "start" None
        (Mock.start "RUNNING") = Returns j s'
      /\ issued (Mock.start "RUNNING") s'
         = get_event "iad" "ocid1.instance.oc1.iad.xyz" ok :: rest
      /\ Forall (is_action_event_of "iad" "ocid1.instance.oc1.iad.xyz") rest)
  /\ compute_instance_action (Mock.env []) "ocid1.instance" "start" None (Mock.start "RUNNING")
     = Returns (error_json "Invalid instance_id format. Cannot extract region.")
         (Mock.start "RUNNING").
Proof.
  split.
  - apply (proj1 (proj2 (proj1 (region_from_identifier (Mock.env [])
                                  "ocid1.instance.oc1.iad.xyz" "start" None
                                  (Mock.start "RUNNING") eq_refl) "iad" eq_refl))
             iad_not_empty eq_refl).
  - apply (proj2 (proj2 (region_from_identifier (Mock.env []) "ocid1.instance" "start"
                           None (Mock.start "RUNNING") eq_refl))).
    simpl. lia.
Defined.

(** "stop" on a RUNNING instance: the query comes first. *)
Lemma state_queried_before_dispatch_witness :
  exists j s' ok rest,
    compute_instance_action (Mock.env []) Mock.abc123 "stop" None (Mock.start "RUNNING")
    = Returns j s'
    /\ issued (Mock.start "RUNNING") s' = get_event "iad" Mock.abc123 ok :: rest
    /\ Forall (is_action_event_of "iad" Mock.abc123) rest
    /\ ok = true
    /\ (json_get j "previous_state" = Some (JStr "RUNNING")
        \/ (is_error_json j /\ some_failed rest = true)).
Proof.
  apply (state_queried_before_dispatch (Mock.env []) Mock.abc123 "stop" None "iad"
           (Mock.start "RUNNING") eq_refl iad_not_empty eq_refl).
Defined.

(** The claim of C8 as stated fails when the 4th segment of the identifier
    is empty: validation passes (there are five segments and the action is
    valid), but the client cannot be built, so the state is not queried and
    the result is the error object. *)
Lemma empty_region_counterexample :
  resolve_region "ocid1.instance.oc1..abc" None = Some ""
  /\ str_in (py_upper (Mock.env []) "start") valid_actions = true
  /\ compute_instance_action (Mock.env []) "ocid1.instance.oc1..abc" "start" None
       (Mock.start "RUNNING")
     = Returns
         (error_json
            "Failed to perform instance action: Must supply either a region or an endpoint.")
         (Mock.start "RUNNING")
  /\ ~ (exists j s' c ok rest,
          compute_instance_action (Mock.env []) "ocid1.instance.oc1..abc" "start" None
            (Mock.start "RUNNING") = Returns j s'
          /\ issued (Mock.start "RUNNING") s'
             = {| ev_call := GetInstance c "ocid1.instance.oc1..abc"; ev_ok := ok |} :: rest).
Proof.
  split; [reflexivity|]. split; [reflexivity|]. split; [reflexivity|].
  intros (j & s' & c & ok & rest & Hrun & Hcalls).
  vm_compute in Hrun. injection Hrun as <- <-.
  vm_compute in Hcalls. discriminate Hcalls.
Qed.

(** Two pages and the root. *)
Lemma root_compartment_is_listed_witness :
  list_compartments (Mock.env []) 2 (Mock.start "RUNNING")
  = Returns (JArr (map compartment_json [Mock.dev; Mock.prod; Mock.root]))
      {| world := "RUNNING";
         trace := [{| ev_call := ListCompartments "ocid1.tenancy.oc1..root" None;
                      ev_ok := true |};
                   {| ev_call := ListCompartments "ocid1.tenancy.oc1..root" (Some "page2");
                      ev_ok := true |};
                   root_event "ocid1.tenancy.oc1..root"] |}.
Proof.
  apply (proj2 (root_compartment_is_listed (Mock.env []) 2 (Mock.start "RUNNING"))
           [ {| data := [Mock.dev]; next_page := Some "page2" |};
             {| data := [Mock.prod]; next_page := None |} ]
           "RUNNING" Mock.root "RUNNING").
  - eapply pagination_next; [reflexivity | reflexivity |].
    eapply pagination_last; reflexivity.
  - reflexivity.
  - simpl. lia.
Defined.

(** "DEV" and "dev" resolve alike. *)
Lemma name_lookup_ignores_case_witness :
  get_compartment_by_name (Mock.env []) 2 "DEV" (Mock.start "RUNNING")
  = get_compartment_by_name (Mock.env []) 2 "dev" (Mock.start "RUNNING").
Proof.
  apply (proj1 (proj1 (proj2 (proj2 (name_lookup_ignores_case (Mock.env []) 2 "DEV" "dev"
                                       "acme" None)))
                  eq_refl)).
Defined.

(** The claim of C10 as stated fails for a name with a sharp s: upper-casing
    "straße" is a change of case, yet the compartment named "straße" is
    found under "straße" and not under "STRASSE", since the lower-cased
    forms differ. *)
Lemma sharp_s_counterexample :
  py_upper Mock.german "straße" = "STRASSE"
  /\ (exists s',
        get_compartment_by_name Mock.german 1 "straße" (Mock.start "RUNNING")
        = Returns (Some Mock.strasse) s'
        /\ get_compartment_by_name Mock.german 1 (py_upper Mock.german "straße")
             (Mock.start "RUNNING")
           = Returns None s')
  /\ get_compartment_by_name Mock.german 1 "straße" (Mock.start "RUNNING")
     <> get_compartment_by_name Mock.german 1 (py_upper Mock.german "straße")
          (Mock.start "RUNNING").
Proof.
  split; [reflexivity|]. split.
  - eexists. split; vm_compute; reflexivity.
  - intros H. vm_compute in H. discriminate H.
Qed.

(** ** Further properties of the coordinator *)

(** Split an invocation that passed validation into its runs: the answer
    to the state query, the observed state, and the answer to each
    dispatched call. *)
Ltac coordinator_runs E r instance_id s Hne :=
  let inst := fresh "inst" in
  run_coordinator; cbn; rewrite Hne; cbn;
  destruct (be_get_instance E (RegionalClient r) instance_id (world s))
    as [[inst | ?] ?] eqn:?; cbn;
  [ destruct (lifecycle_state inst =? "STOPPED") eqn:?;
    destruct (lifecycle_state inst =? "RUNNING") eqn:?; cbn;
    repeat match goal with
      | |- context [be_instance_action E ?c ?i ?a ?w] =>
          destruct (be_instance_action E c i a w) as [[[] | ?] ?] eqn:?; cbn
      end
  | ];
  rewrite <- ?app_assoc; cbn.

Section CoordinatorExtras.

Context {W : Type} (E : Env W).

(** X1: whatever its arguments and whatever the backend answers, an
    invocation of compute_instance_action returns, and the lifecycle
    actions it has dispatched are one of: none, START, STOP, or STOP then
    START.  In particular the backend action RESET is never sent, START is
    never followed by STOP, and no action is sent twice. *)
Theorem dispatch_is_bounded
  (instance_id action : string) (region : option string) (s : state W) :
  exists j s',
    compute_instance_action E instance_id action region s = Returns j s'
    /\ In (dispatched (issued s s')) dispatch_shapes.
Proof.
  destruct (resolve_region instance_id region) as [r|] eqn:Hr.
  2:{ rewrite (unresolved_region_run E _ _ _ s Hr). do 2 eexists.
      split; [reflexivity|]. rewrite issued_refl. left. reflexivity. }
  destruct (String.eqb_spec r "") as [-> | Hne].
  { rewrite (client_refused_run E _ _ _ s Hr). do 2 eexists.
    split; [reflexivity|]. rewrite issued_refl. left. reflexivity. }
  destruct (str_in (py_upper E action) valid_actions) eqn:Ha.
  2:{ rewrite (invalid_action_run E _ _ _ _ s Hr Hne Ha). do 2 eexists.
      split; [reflexivity|]. rewrite issued_refl. left. reflexivity. }
  pose proof (valid_action_cases _ Ha) as Hcases. apply String.eqb_neq in Hne.
  unfold compute_instance_action. rewrite Hr, Ha.
  destruct Hcases as [-> | [-> | ->]];
    coordinator_runs E r instance_id s Hne;
    (do 2 eexists; split; [reflexivity|]; rewrite issued_app;
     unfold dispatch_shapes; cbn; tauto).
Qed.


(** X2: partial failure of RESET on a RUNNING instance.  When the backend
    rejects STOP, START is not dispatched; when it accepts STOP and rejects
    START, the STOP stays in effect (nothing is rolled back or retried).
    In both cases the result is the error object carrying the backend's
    text after "Failed to perform instance action: ". *)
Theorem reset_partial_failure
  (instance_id action : string) (region : option string) (r : string)
  (s : state W) (inst : Instance) (w1 : W) :
  resolve_region instance_id region = Some r ->
  r <> "" ->
  py_upper E action = "RESET" ->
  be_get_instance E (RegionalClient r) instance_id (world s) = (Ok inst, w1) ->
  lifecycle_state inst = "RUNNING" ->
  (forall msg w2,
      be_instance_action E (RegionalClient r) instance_id "STOP" w1 = (Err msg, w2) ->
      compute_instance_action E instance_id action region s
      = Returns (error_json ("Failed to perform instance action: " ++ msg))
          {| world := w2;
             trace := trace s ++ [get_event r instance_id true;
                                  action_event r instance_id "STOP" false] |})
  /\
  (forall w2 msg w3,
      be_instance_action E (RegionalClient r) instance_id "STOP" w1 = (Ok tt, w2) ->
      be_instance_action E (RegionalClient r) instance_id "START" w2 = (Err msg, w3) ->
      compute_instance_action E instance_id action region s
      = Returns (error_json ("Failed to perform instance action: " ++ msg))
          {| world := w3;
             trace := trace s ++ [get_event r instance_id true;
                                  action_event r instance_id "STOP" true;
                                  action_event r instance_id "START" false] |}).
Proof.
  intros Hr Hne Ha Hg Hs. apply String.eqb_neq in Hne. split.
  - intros msg w2 Hstop. run_coordinator. rewrite Hr, Ha. cbn. rewrite Hne. cbn.
    rewrite Hg, Hs. cbn.
    rewrite Hstop. cbn. rewrite <- app_assoc. reflexivity.
  - intros w2 msg w3 Hstop Hstart. run_coordinator. rewrite Hr, Ha. cbn.
    rewrite Hne. cbn. rewrite Hg, Hs. cbn. rewrite Hstop. cbn. rewrite Hstart. cbn.
    rewrite <- !app_assoc. reflexivity.
Qed.

(** X3: every result of a validated invocation that is not the error
    object is an Action Result of exactly six members: instance_id as
    given, instance_name and previous_state as the state query reported
    them, action_requested in upper case, a status among "Action
    initiated", "No action needed" and "Cannot reset", and a message. *)
Theorem action_result_shape
  (instance_id action : string) (region : option string) (r : string) (s : state W) :
  resolve_region instance_id region = Some r ->
  str_in (py_upper E action) valid_actions = true ->
  exists j s',
    compute_instance_action E instance_id action region s = Returns j s'
    /\ (is_error_json j
        \/ exists inst w1,
             be_get_instance E (RegionalClient r) instance_id (world s) = (Ok inst, w1)
             /\ json_get j "instance_id" = Some (JStr instance_id)
             /\ json_get j "instance_name" = Some (JStr (display_name inst))
             /\ json_get j "action_requested" = Some (JStr (py_upper E action))
             /\ json_get j "previous_state" = Some (JStr (lifecycle_state inst))
             /\ In (status_of j) [Some (JStr "Action initiated");
                                  Some (JStr "No action needed");
                                  Some (JStr "Cannot reset")]
             /\ (exists text, json_get j "message" = Some (JStr text))
             /\ length (json_keys j) = 6).
Proof.
  intros Hr Ha. pose proof (valid_action_cases _ Ha) as Hcases.
  destruct (String.eqb_spec r "") as [-> | Hne].
  { rewrite (client_refused_run E _ _ _ s Hr). do 2 eexists.
    split; [reflexivity|]. left. eexists. reflexivity. }
  apply String.eqb_neq in Hne.
  unfold compute_instance_action. rewrite Hr, Ha.
  destruct Hcases as [-> | [-> | ->]];
    coordinator_runs E r instance_id s Hne;
    (do 2 eexists; split; [reflexivity|];
     first [ left; eexists; reflexivity
           | right; do 2 eexists; split; [reflexivity|];
             cbn; repeat split; try (eexists; reflexivity); tauto ]).
Qed.

(** X4: a region given by the caller is used as it is and the identifier
    is not parsed: whatever the identifier (it may have fewer than four
    segments, or name another region), the state query and every
    lifecycle action go to the client of the given region, with the
    identifier passed on unchanged. *)
Theorem supplied_region_wins
  (instance_id action r : string) (s : state W) :
  truthy (Some r) = true ->
  str_in (py_upper E action) valid_actions = true ->
  exists j s' ok rest,
    compute_instance_action E instance_id action (Some r) s = Returns j s'
    /\ issued s s' = get_event r instance_id ok :: rest
    /\ Forall (is_action_event_of r instance_id) rest.
Proof.
  intros Hregion Ha.
  assert (Hr : resolve_region instance_id (Some r) = Some r)
    by (unfold resolve_region; rewrite Hregion; reflexivity).
  assert (Hne : r <> "")
    by (simpl in Hregion; apply String.eqb_neq;
        destruct (String.eqb r ""); [discriminate | reflexivity]).
  destruct (coordinator_shape E _ _ _ _ s Hr Hne Ha)
    as (j & s' & ok & rest & Hrun & Htrace & Hrest & _).
  exists j, s', ok, rest. split; [exact Hrun|].
  split; [apply (issued_of_trace s s'); exact Htrace | exact Hrest].
Qed.

(** X5: a validated invocation of compute_instance_action returns the
    error object exactly when the client of its region could not be built
    (the region is empty) or one of its backend calls has failed. *)
Theorem error_only_on_failure
  (instance_id action : string) (region : option string) (r : string) (s : state W) :
  resolve_region instance_id region = Some r ->
  str_in (py_upper E action) valid_actions = true ->
  exists j s',
    compute_instance_action E instance_id action region s = Returns j s'
    /\ (is_error_json j <-> r = "" \/ some_failed (issued s s') = true).
Proof.
  intros Hr Ha. pose proof (valid_action_cases _ Ha) as Hcases.
  destruct (String.eqb_spec r "") as [-> | Hne].
  { rewrite (client_refused_run E _ _ _ s Hr). do 2 eexists.
    split; [reflexivity|]. split; [intros _; left; reflexivity|].
    intros _. eexists. reflexivity. }
  assert (Hne' := Hne). apply String.eqb_neq in Hne'.
  unfold compute_instance_action. rewrite Hr, Ha.
  destruct Hcases as [-> | [-> | ->]];
    coordinator_runs E r instance_id s Hne';
    (do 2 eexists; split; [reflexivity|]; rewrite issued_app; cbn; split;
     [ first [ intros _; right; reflexivity | intros [text Htext]; discriminate Htext ]
     | first [ intros [Hempty | Hfailed]; [contradiction | discriminate Hfailed]
             | intros _; eexists; reflexivity ] ]).
Qed.

End CoordinatorExtras.

(** ** Further properties of the compartment and instance tools *)

Section ListingExtras.

Context {W : Type} (E : Env W).

Lemma loop_endless :
  (forall page w, exists response w',
      be_list_compartments E (tenancy_id E) page w = (Ok response, w')
      /\ truthy (next_page response) = true) ->
  forall fuel page acc (s : state W),
    get_all_compartments_loop E fuel page acc s = Diverges.
Proof.
  intros Hmore fuel. induction fuel as [|fuel IH]; intros page acc s; simpl.
  - reflexivity.
  - unfold bind, identity_list_compartments, perform.
    destruct (Hmore (if truthy page then page else None) (world s))
      as (response & w' & -> & Hnext).
    rewrite Hnext. simpl. apply IH.
Qed.

(** X6: the pagination loop has no bound of its own: against an identity
    service that answers every page with a further non-empty token,
    list_compartments, list_compute_instances and
    get_compute_instance_by_name do not return, whatever the fuel. *)
Theorem endless_pagination_never_returns :
  (forall page w, exists response w',
      be_list_compartments E (tenancy_id E) page w = (Ok response, w')
      /\ truthy (next_page response) = true) ->
  forall fuel (s : state W),
    list_compartments E fuel s = Diverges
    /\ (forall cn r, list_compute_instances E fuel cn r s = Diverges)
    /\ (forall n cn r, get_compute_instance_by_name E fuel n cn r s = Diverges).
Proof.
  intros Hmore fuel s.
  assert (Hall : get_all_compartments E fuel s = Diverges)
    by (unfold get_all_compartments, bind; rewrite (loop_endless Hmore); reflexivity).
  assert (Hname : forall cn, get_compartment_by_name E fuel cn s = Diverges)
    by (intros cn; unfold get_compartment_by_name, bind; rewrite Hall; reflexivity).
  split; [|split].
  - unfold list_compartments, try_except, bind. rewrite Hall. reflexivity.
  - intros cn r. unfold list_compute_instances, try_except, bind.
    rewrite Hname. reflexivity.
  - intros n cn r. unfold get_compute_instance_by_name, try_except, bind.
    rewrite Hname. reflexivity.
Qed.


Lemma loop_broken (page : option string) (w : W) responses msg (w' : W) :
  broken_pagination E page w responses msg w' ->
  forall fuel p acc (s : state W),
    (if truthy p then p else None) = page ->
    world s = w ->
    length responses < fuel ->
    get_all_compartments_loop E fuel p acc s
    = Raises msg
        {| world := w';
           trace := trace s ++ page_events (tenancy_id E) page responses
                            ++ [broken_event (tenancy_id E) page responses] |}.
Proof.
  induction 1 as [page w msg w' Hcall
                 | page w response w' responses msg w'' Hcall Hnext Hrest IH];
    intros fuel p acc s Hp Hw Hfuel;
    (destruct fuel as [|fuel]; [simpl in Hfuel; lia|]);
    simpl; unfold bind, identity_list_compartments, perform;
    rewrite Hp, Hw, Hcall; simpl.
  - reflexivity.
  - rewrite Hnext. simpl.
    erewrite IH;
      [ | apply truthy_page; exact Hnext | reflexivity | simpl in Hfuel; lia ].
    simpl. rewrite <- !app_assoc. reflexivity.
Qed.


Lemma get_all_compartments_page_fails (fuel : nat) (s : state W) responses msg w' :
  broken_pagination E None (world s) responses msg w' ->
  length responses < fuel ->
  get_all_compartments E fuel s
  = Raises msg
      {| world := w';
         trace := trace s ++ page_events (tenancy_id E) None responses
                          ++ [broken_event (tenancy_id E) None responses] |}.
Proof.
  intros Hbroken Hfuel. unfold get_all_compartments, bind.
  rewrite (loop_broken _ _ _ _ _ Hbroken fuel None [] s eq_refl eq_refl Hfuel).
  reflexivity.
Qed.

Lemma get_all_compartments_root_fails (fuel : nat) (s : state W) responses w1 msg w2 :
  pagination E None (world s) responses w1 ->
  be_get_compartment E (tenancy_id E) w1 = (Err msg, w2) ->
  length responses <= fuel ->
  get_all_compartments E fuel s
  = Raises msg
      {| world := w2;
         trace := trace s ++ page_events (tenancy_id E) None responses
                          ++ [{| ev_call := GetCompartment (tenancy_id E);
                                 ev_ok := false |}] |}.
Proof.
  intros Hpages Hroot Hfuel. unfold get_all_compartments, bind.
  rewrite (loop_enough_fuel E _ _ _ _ Hpages fuel None [] s eq_refl eq_refl Hfuel).
  unfold identity_get_compartment, perform. simpl. rewrite Hroot.
  simpl. rewrite <- app_assoc. reflexivity.
Qed.

(** X7: list_compartments is all or nothing.  If fetching some page fails
    after others were fetched, the pages already read are dropped, the
    root compartment is not requested, and the result is the error object
    with the backend's text; if all pages are read but the root
    compartment cannot be, the result is the error object as well. *)
Theorem compartment_listing_failure (fuel : nat) (s : state W) :
  (forall responses msg w',
      broken_pagination E None (world s) responses msg w' ->
      length responses < fuel ->
      list_compartments E fuel s
      = Returns (error_json ("Failed to list compartments: " ++ msg))
          {| world := w';
             trace := trace s ++ page_events (tenancy_id E) None responses
                              ++ [broken_event (tenancy_id E) None responses] |})
  /\
  (forall responses w1 msg w2,
      pagination E None (world s) responses w1 ->
      be_get_compartment E (tenancy_id E) w1 = (Err msg, w2) ->
      length responses <= fuel ->
      list_compartments E fuel s
      = Returns (error_json ("Failed to list compartments: " ++ msg))
          {| world := w2;
             trace := trace s ++ page_events (tenancy_id E) None responses
                              ++ [{| ev_call := GetCompartment (tenancy_id E);
                                     ev_ok := false |}] |}).
Proof.
  split.
  - intros responses msg w' Hbroken Hfuel. unfold list_compartments, try_except, bind.
    rewrite (get_all_compartments_page_fails _ _ _ _ _ Hbroken Hfuel). reflexivity.
  - intros responses w1 msg w2 Hpages Hroot Hfuel.
    unfold list_compartments, try_except, bind.
    rewrite (get_all_compartments_root_fails _ _ _ _ _ _ Hpages Hroot Hfuel). reflexivity.
Qed.

Lemma dependents_after_raise (fuel : nat) (s : state W) msg s1 :
  get_all_compartments E fuel s = Raises msg s1 ->
  forall n cn r,
    list_compute_instances E fuel cn r s
    = Returns (error_json ("Failed to list compute instances: " ++ msg)) s1
    /\ get_compute_instance_by_name E fuel n cn r s
       = Returns (error_json ("Failed to get compute instance by name: " ++ msg)) s1.
Proof.
  intros Hall n cn r.
  unfold list_compute_instances, get_compute_instance_by_name, try_except, bind,
    get_compartment_by_name, bind.
  rewrite Hall. split; reflexivity.
Qed.

(** X8: a failure while listing the compartments reaches the tools that
    resolve a compartment by name: list_compute_instances and
    get_compute_instance_by_name return the error object with their own
    prefix and the backend's text, and make no compute call. *)
Theorem listing_failure_reaches_dependents
  (fuel : nat) (s : state W) (n cn : string) (r : option string) :
  (forall responses msg w',
      broken_pagination E None (world s) responses msg w' ->
      length responses < fuel ->
      exists s1,
        list_compute_instances E fuel cn r s
        = Returns (error_json ("Failed to list compute instances: " ++ msg)) s1
        /\ get_compute_instance_by_name E fuel n cn r s
           = Returns (error_json ("Failed to get compute instance by name: " ++ msg)) s1
        /\ world s1 = w'
        /\ issued s s1 = (page_events (tenancy_id E) None responses
                          ++ [broken_event (tenancy_id E) None responses])%list)
  /\
  (forall responses w1 msg w2,
      pagination E None (world s) responses w1 ->
      be_get_compartment E (tenancy_id E) w1 = (Err msg, w2) ->
      length responses <= fuel ->
      exists s1,
        list_compute_instances E fuel cn r s
        = Returns (error_json ("Failed to list compute instances: " ++ msg)) s1
        /\ get_compute_instance_by_name E fuel n cn r s
           = Returns (error_json ("Failed to get compute instance by name: " ++ msg)) s1
        /\ world s1 = w2
        /\ issued s s1 = (page_events (tenancy_id E) None responses
                          ++ [{| ev_call := GetCompartment (tenancy_id E);
                                 ev_ok := false |}])%list).
Proof.
  split.
  - intros responses msg w' Hbroken Hfuel.
    pose proof (get_all_compartments_page_fails _ _ _ _ _ Hbroken Hfuel) as Hall.
    destruct (dependents_after_raise _ _ _ _ Hall n cn r) as [H1 H2].
    eexists. split; [exact H1|]. split; [exact H2|]. split; [reflexivity|].
    apply issued_app.
  - intros responses w1 msg w2 Hpages Hroot Hfuel.
    pose proof (get_all_compartments_root_fails _ _ _ _ _ _ Hpages Hroot Hfuel) as Hall.
    destruct (dependents_after_raise _ _ _ _ Hall n cn r) as [H1 H2].
    eexists. split; [exact H1|]. split; [exact H2|]. split; [reflexivity|].
    apply issued_app.
Qed.

Lemma compartment_resolved (fuel : nat) (cn : string) (s : state W) comps s1 c :
  get_all_compartments E fuel s = Returns comps s1 ->
  first_such (compartment_matches E cn) comps c ->
  get_compartment_by_name E fuel cn s = Returns (Some c) s1.
Proof.
  intros Hall Hc. unfold get_compartment_by_name, bind, ret. rewrite Hall. f_equal.
  apply find_first_such. exact Hc.
Qed.

(** X9: list_compute_instances lists the instances of the first
    compartment whose lower-cased name equals the lower-cased argument:
    one summary per instance, in the order of the backend (an empty
    compartment gives an empty array, not an error), through the
    process-wide client unless a non-empty region is given; if listing
    fails the result is the error object with the backend's text. *)
Theorem list_compute_instances_end_to_end
  (fuel : nat) (cn : string) (r : option string) (s : state W) comps s1 c :
  get_all_compartments E fuel s = Returns comps s1 ->
  first_such (compartment_matches E cn) comps c ->
  (forall instances w2,
      be_list_instances E (client_for r) (comp_id c) (world s1) = (Ok instances, w2) ->
      list_compute_instances E fuel cn r s
      = Returns (JArr (map instance_summary_json instances))
          {| world := w2;
             trace := trace s1 ++ [list_instances_event (client_for r) (comp_id c) true] |})
  /\
  (forall msg w2,
      be_list_instances E (client_for r) (comp_id c) (world s1) = (Err msg, w2) ->
      list_compute_instances E fuel cn r s
      = Returns (error_json ("Failed to list compute instances: " ++ msg))
          {| world := w2;
             trace := trace s1 ++ [list_instances_event (client_for r) (comp_id c) false] |}).
Proof.
  intros Hall Hc. pose proof (compartment_resolved _ _ _ _ _ _ Hall Hc) as Hname.
  split; intros; unfold list_compute_instances, try_except, bind, list_instances, perform;
    rewrite Hname; match goal with H : be_list_instances _ _ _ _ = _ |- _ => rewrite H end;
    reflexivity.
Qed.

(** X10: once a listed instance matches the name (its lower-cased display
    name equals the lower-cased argument),
    get_compute_instance_by_name makes a second query, [get_instance] on
    the identifier of the first match through the same client, and
    returns the details that query reports, not the listed entry; if the
    query fails, the error object carries get_compute_instance's prefix
    "Failed to get compute instance: ". *)
Theorem by_name_detail_query
  (fuel : nat) (n cn : string) (r : option string) (s : state W)
  c s1 instances w2 i :
  get_compartment_by_name E fuel cn s = Returns (Some c) s1 ->
  be_list_instances E (client_for r) (comp_id c) (world s1) = (Ok instances, w2) ->
  first_such (instance_matches E n) instances i ->
  (forall detail w3,
      be_get_instance E (client_for r) (inst_id i) w2 = (Ok detail, w3) ->
      get_compute_instance_by_name E fuel n cn r s
      = Returns (instance_json detail)
          {| world := w3;
             trace := trace s1 ++ [list_instances_event (client_for r) (comp_id c) true;
                                   detail_event (client_for r) (inst_id i) true] |})
  /\
  (forall msg w3,
      be_get_instance E (client_for r) (inst_id i) w2 = (Err msg, w3) ->
      get_compute_instance_by_name E fuel n cn r s
      = Returns (error_json ("Failed to get compute instance: " ++ msg))
          {| world := w3;
             trace := trace s1 ++ [list_instances_event (client_for r) (comp_id c) true;
                                   detail_event (client_for r) (inst_id i) false] |}).
Proof.
  intros Hc Hl Hi.
  assert (Hfind : find (instance_matches E n) instances = Some i).
  { apply find_first_such. exact Hi. }
  split; intros; rewrite (by_name_after_listing E _ _ _ _ _ _ _ _ _ Hc Hl), Hfind;
    unfold get_compute_instance, try_except, bind, get_instance, perform; simpl;
    match goal with H : be_get_instance _ _ _ _ = _ |- _ => rewrite H end;
    simpl; rewrite <- app_assoc; reflexivity.
Qed.

(** X11: the root compartment is searched last: whenever
    get_compartment_by_name returns a compartment, its lower-cased name
    equals the lower-cased argument, and it is either one of the listed
    compartments, or the root compartment when no listed compartment
    matches. *)
Theorem listed_compartment_shadows_root
  (fuel : nat) (name : string) (s : state W) c s' :
  get_compartment_by_name E fuel name s = Returns (Some c) s' ->
  exists responses root w1,
    pagination E None (world s) responses w1
    /\ be_get_compartment E (tenancy_id E) w1 = (Ok root, world s')
    /\ compartment_matches E name c = true
    /\ (In c (page_data responses)
        \/ (c = root
            /\ forall listed, In listed (page_data responses) ->
                              compartment_matches E name listed = false)).
Proof.
  unfold get_compartment_by_name, bind. intros Hrun.
  destruct (get_all_compartments E fuel s) as [comps s1 | |] eqn:Hall; try discriminate.
  unfold ret in Hrun. injection Hrun as Hfind <-.
  destruct (get_all_compartments_returns E _ _ _ _ Hall)
    as (responses & root & w1 & Hpages & Hroot & -> & _).
  exists responses, root, w1. split; [exact Hpages|]. split; [exact Hroot|].
  apply find_first_such in Hfind.
  destruct Hfind as (before & after & Hsplit & Hc & Hbefore).
  split; [exact Hc|].
  destruct after as [|x after].
  - apply app_inj_tail in Hsplit. destruct Hsplit as [-> ->].
    right. split; [reflexivity | exact Hbefore].
  - left.
    assert (Hin : In c (removelast (page_data responses ++ [root]))).
    { rewrite Hsplit. rewrite removelast_app by discriminate.
      apply in_or_app. right. simpl. destruct after; left; reflexivity. }
    rewrite removelast_last in Hin. exact Hin.
Qed.

(** X12: get_compute_instance always returns after exactly one backend
    call, the [get_instance] query through the process-wide client or the
    client of the given non-empty region, and its result is the error
    object exactly when that call failed. *)
Theorem get_compute_instance_single_call
  (instance_id : string) (r : option string) (s : state W) :
  exists j s' ok,
    get_compute_instance E instance_id r s = Returns j s'
    /\ issued s s' = [detail_event (client_for r) instance_id ok]
    /\ (is_error_json j <-> ok = false).
Proof.
  unfold get_compute_instance, try_except, bind, get_instance, perform, ret.
  destruct (be_get_instance E (client_for r) instance_id (world s)) as [[inst | msg] w'];
    do 3 eexists; (split; [reflexivity|]); (split; [apply issued_app|]); split.
  - intros [text Htext]. discriminate Htext.
  - discriminate.
  - reflexivity.
  - intros _. eexists. reflexivity.
Qed.

End ListingExtras.

Lemma dispatched_app (a b : list event) :
  dispatched (a ++ b) = (dispatched a ++ dispatched b)%list.
Proof.
  induction a as [|ev a IH]; simpl; [reflexivity|].
  destruct (ev_call ev); simpl; rewrite IH; reflexivity.
Qed.

Section ReadOnly.

Context {W : Type} (E : Env W).

Lemma harmless_ret {A} (a : A) : harmless (@ret W A a).
Proof.
  intros s. exists []. split; [symmetry; apply app_nil_r | reflexivity].
Qed.

Lemma harmless_perform {A} (c : call) (oracle : W -> result A * W) :
  dispatched [{| ev_call := c; ev_ok := true |}] = [] ->
  harmless (perform c oracle).
Proof.
  intros Hc s. unfold perform.
  destruct (oracle (world s)) as [[a | msg] w']; eexists; (split; [reflexivity|]);
    simpl in *; destruct c; try reflexivity; discriminate Hc.
Qed.

Lemma harmless_bind {A B} (m : M W A) (k : A -> M W B) :
  harmless m -> (forall a, harmless (k a)) -> harmless (bind m k).
Proof.
  intros Hm Hk s. unfold bind. specialize (Hm s).
  destruct (m s) as [a s1 | msg s1 |]; [| exact Hm | exact I].
  destruct Hm as (new1 & H1 & Hd1). specialize (Hk a s1).
  destruct (k a s1) as [b s2 | msg s2 |]; [| | exact I];
    destruct Hk as (new2 & H2 & Hd2); exists (new1 ++ new2)%list;
    (split; [rewrite H2, H1, app_assoc; reflexivity
            | rewrite dispatched_app, Hd1, Hd2; reflexivity]).
Qed.

Lemma harmless_try {A} (body : M W A) (handler : string -> M W A) :
  harmless body -> (forall e, harmless (handler e)) -> harmless (try_except body handler).
Proof.
  intros Hb Hh s. unfold try_except. specialize (Hb s).
  destruct (body s) as [a s1 | msg s1 |]; [exact Hb | | exact I].
  destruct Hb as (new1 & H1 & Hd1). specialize (Hh msg s1).
  destruct (handler msg s1) as [b s2 | msg2 s2 |]; [| | exact I];
    destruct Hh as (new2 & H2 & Hd2); exists (new1 ++ new2)%list;
    (split; [rewrite H2, H1, app_assoc; reflexivity
            | rewrite dispatched_app, Hd1, Hd2; reflexivity]).
Qed.

Lemma harmless_loop (fuel : nat) :
  forall page acc, harmless (get_all_compartments_loop E fuel page acc).
Proof.
  induction fuel as [|fuel IH]; intros page acc; simpl.
  - intros s. exact I.
  - apply harmless_bind; [apply harmless_perform; reflexivity|]. intros response.
    destruct (negb (truthy (next_page response))); [apply harmless_ret | apply IH].
Qed.

Lemma harmless_get_compartment_by_name (fuel : nat) (name : string) :
  harmless (get_compartment_by_name E fuel name).
Proof.
  unfold get_compartment_by_name, get_all_compartments.
  apply harmless_bind; [|intros; apply harmless_ret].
  apply harmless_bind; [apply harmless_loop|]. intros l.
  apply harmless_bind; [apply harmless_perform; reflexivity|].
  intros; apply harmless_ret.
Qed.

Lemma harmless_get_compute_instance (instance_id : string) (r : option string) :
  harmless (get_compute_instance E instance_id r).
Proof.
  apply harmless_try; [|intros; apply harmless_ret].
  apply harmless_bind; [apply harmless_perform; reflexivity|].
  intros; apply harmless_ret.
Qed.

(** X13: the four read tools (list_compartments, list_compute_instances,
    get_compute_instance, get_compute_instance_by_name) never dispatch a
    lifecycle action. *)
Theorem read_tools_never_dispatch (fuel : nat) (s : state W) (j : json) (s' : state W) :
  (list_compartments E fuel s = Returns j s'
   \/ (exists cn r, list_compute_instances E fuel cn r s = Returns j s')
   \/ (exists id r, get_compute_instance E id r s = Returns j s')
   \/ (exists n cn r, get_compute_instance_by_name E fuel n cn r s = Returns j s')) ->
  dispatched (issued s s') = []
  /\ Forall (fun ev => match ev_call ev with InstanceAction _ _ _ => False | _ => True end)
       (issued s s').
Proof.
  intros Hrun.
  assert (Hnew : exists new, trace s' = (trace s ++ new)%list /\ dispatched new = []).
  { destruct Hrun as [H | [(cn & r & H) | [(id & r & H) | (n & cn & r & H)]]].
    - assert (Hh : harmless (list_compartments E fuel)).
      { apply harmless_try; [|intros; apply harmless_ret].
        apply harmless_bind; [|intros; apply harmless_ret].
        unfold get_all_compartments.
        apply harmless_bind; [apply harmless_loop|]. intros l.
        apply harmless_bind; [apply harmless_perform; reflexivity|].
        intros; apply harmless_ret. }
      specialize (Hh s). rewrite H in Hh. exact Hh.
    - assert (Hh : harmless (list_compute_instances E fuel cn r)).
      { apply harmless_try; [|intros; apply harmless_ret].
        apply harmless_bind; [apply harmless_get_compartment_by_name|].
        intros [c|]; [|apply harmless_ret].
        apply harmless_bind; [apply harmless_perform; reflexivity|].
        intros; apply harmless_ret. }
      specialize (Hh s). rewrite H in Hh. exact Hh.
    - pose proof (harmless_get_compute_instance id r s) as Hh.
      rewrite H in Hh. exact Hh.
    - assert (Hh : harmless (get_compute_instance_by_name E fuel n cn r)).
      { apply harmless_try; [|intros; apply harmless_ret].
        apply harmless_bind; [apply harmless_get_compartment_by_name|].
        intros [c|]; [|apply harmless_ret].
        apply harmless_bind; [apply harmless_perform; reflexivity|].
        intros instances.
        destruct (find (instance_matches E n) instances);
          [apply harmless_get_compute_instance | apply harmless_ret]. }
      specialize (Hh s). rewrite H in Hh. exact Hh. }
  destruct Hnew as (new & Htrace & Hd).
  rewrite (issued_of_trace s s' new Htrace). split; [exact Hd|].
  clear Htrace. induction new as [|ev new IH]; constructor.
  - simpl in Hd. destruct (ev_call ev); try exact I. discriminate Hd.
  - apply IH. simpl in Hd. destruct (ev_call ev); try exact Hd. discriminate Hd.
Qed.

End ReadOnly.

(** ** The further theorems at work on the mock backends *)

(** RESET of a RUNNING instance when START, and when STOP, is rejected. *)
Lemma reset_partial_failure_witness :
  compute_instance_action (Mock.env ["START"]) Mock.abc123 "reset" None (Mock.start "RUNNING")
  = Returns (error_json "Failed to perform instance action: 409 Conflict")
      {| world := "STOPPING";
         trace := [get_event "iad" Mock.abc123 true;
                   action_event "iad" Mock.abc123 "STOP" true;
                   action_event "iad" Mock.abc123 "START" false] |}
  /\ compute_instance_action (Mock.env ["STOP"]) Mock.abc123 "reset" None (Mock.start "RUNNING")
     = Returns (error_json "Failed to perform instance action: 409 Conflict")
         {| world := "RUNNING";
            trace := [get_event "iad" Mock.abc123 true;
                      action_event "iad" Mock.abc123 "STOP" false] |}.
Proof.
  split.
  - apply (proj2 (reset_partial_failure (Mock.env ["START"]) Mock.abc123 "reset" None "iad"
                    (Mock.start "RUNNING") (Mock.instance_in_state Mock.abc123 "RUNNING")
                    "RUNNING" eq_refl iad_not_empty eq_refl eq_refl eq_refl)
             "STOPPING" "409 Conflict" "STOPPING" eq_refl eq_refl).
  - apply (proj1 (reset_partial_failure (Mock.env ["STOP"]) Mock.abc123 "reset" None "iad"
                    (Mock.start "RUNNING") (Mock.instance_in_state Mock.abc123 "RUNNING")
                    "RUNNING" eq_refl iad_not_empty eq_refl eq_refl eq_refl)
             "409 Conflict" "RUNNING" eq_refl).
Defined.

Lemma action_result_shape_witness :
  exists j s',
    compute_instance_action (Mock.env []) Mock.abc123 "stop" None (Mock.start "RUNNING")
    = Returns j s'
    /\ (is_error_json j
        \/ exists inst w1,
             be_get_instance (Mock.env []) (RegionalClient "iad") Mock.abc123 "RUNNING"
             = (Ok inst, w1)
             /\ json_get j "instance_id" = Some (JStr Mock.abc123)
             /\ json_get j "instance_name" = Some (JStr (display_name inst))
             /\ json_get j "action_requested" = Some (JStr "STOP")
             /\ json_get j "previous_state" = Some (JStr (lifecycle_state inst))
             /\ In (status_of j) [Some (JStr "Action initiated");
                                  Some (JStr "No action needed");
                                  Some (JStr "Cannot reset")]
             /\ (exists text, json_get j "message" = Some (JStr text))
             /\ length (json_keys j) = 6).
Proof.
  apply (action_result_shape (Mock.env []) Mock.abc123 "stop" None "iad"
           (Mock.start "RUNNING") eq_refl eq_refl).
Defined.

(** An identifier without dots, and a region given by the caller. *)
Lemma supplied_region_wins_witness :
  exists j s' ok rest,
    compute_instance_action (Mock.env []) "instance-42" "start" (Some "us-phoenix-1")
      (Mock.start "STOPPED") = Returns j s'
    /\ issued (Mock.start "STOPPED") s' = get_event "us-phoenix-1" "instance-42" ok :: rest
    /\ Forall (is_action_event_of "us-phoenix-1" "instance-42") rest.
Proof.
  apply (supplied_region_wins (Mock.env []) "instance-42" "start" "us-phoenix-1"
           (Mock.start "STOPPED") eq_refl eq_refl).
Defined.

Lemma error_only_on_failure_witness :
  exists j s',
    compute_instance_action (Mock.env ["STOP"]) Mock.abc123 "reset" None (Mock.start "RUNNING")
    = Returns j s'
    /\ (is_error_json j
        <-> "iad" = "" \/ some_failed (issued (Mock.start "RUNNING") s') = true).
Proof.
  apply (error_only_on_failure (Mock.env ["STOP"]) Mock.abc123 "reset" None "iad"
           (Mock.start "RUNNING") eq_refl eq_refl).
Defined.

Lemma endless_pagination_never_returns_witness :
  list_compartments Mock.endless 1000 {| world := tt; trace := [] |} = Diverges.
Proof.
  apply (endless_pagination_never_returns Mock.endless).
  intros page w. do 2 eexists. split; reflexivity.
Defined.

(** The second page fails; then the root compartment cannot be read. *)
Lemma compartment_listing_failure_witness :
  list_compartments (Mock.faulty true false false) 5 (Mock.start "RUNNING")
  = Returns (error_json "Failed to list compartments: 500 InternalError")
      {| world := "RUNNING";
         trace := [{| ev_call := ListCompartments "ocid1.tenancy.oc1..root" None;
                      ev_ok := true |};
                   {| ev_call := ListCompartments "ocid1.tenancy.oc1..root" (Some "page2");
                      ev_ok := false |}] |}
  /\ list_compartments (Mock.faulty false true false) 5 (Mock.start "RUNNING")
     = Returns (error_json "Failed to list compartments: 404 NotAuthorizedOrNotFound")
         {| world := "RUNNING";
            trace := [{| ev_call := ListCompartments "ocid1.tenancy.oc1..root" None;
                         ev_ok := true |};
                      {| ev_call := ListCompartments "ocid1.tenancy.oc1..root" (Some "page2");
                         ev_ok := true |};
                      {| ev_call := GetCompartment "ocid1.tenancy.oc1..root";
                         ev_ok := false |}] |}.
Proof.
  split.
  - apply (proj1 (compartment_listing_failure (Mock.faulty true false false) 5
                    (Mock.start "RUNNING"))
             [ {| data := [Mock.dev]; next_page := Some "page2" |} ]
             "500 InternalError" "RUNNING").
    + eapply broken_later; [reflexivity | reflexivity |].
      apply broken_here. reflexivity.
    + simpl. lia.
  - apply (proj2 (compartment_listing_failure (Mock.faulty false true false) 5
                    (Mock.start "RUNNING"))
             [ {| data := [Mock.dev]; next_page := Some "page2" |};
               {| data := [Mock.prod]; next_page := None |} ]
             "RUNNING" "404 NotAuthorizedOrNotFound" "RUNNING").
    + eapply pagination_next; [reflexivity | reflexivity |].
      eapply pagination_last; reflexivity.
    + reflexivity.
    + simpl. lia.
Defined.

Lemma listing_failure_reaches_dependents_witness :
  exists s1,
    list_compute_instances (Mock.faulty true false false) 5 "dev" None (Mock.start "RUNNING")
    = Returns (error_json "Failed to list compute instances: 500 InternalError") s1
    /\ get_compute_instance_by_name (Mock.faulty true false false) 5 "web-1" "dev" None
         (Mock.start "RUNNING")
       = Returns (error_json "Failed to get compute instance by name: 500 InternalError") s1
    /\ world s1 = "RUNNING"
    /\ issued (Mock.start "RUNNING") s1
       = [{| ev_call := ListCompartments "ocid1.tenancy.oc1..root" None; ev_ok := true |};
          {| ev_call := ListCompartments "ocid1.tenancy.oc1..root" (Some "page2");
             ev_ok := false |}].
Proof.
  apply (proj1 (listing_failure_reaches_dependents (Mock.faulty true false false) 5
                  (Mock.start "RUNNING") "web-1" "dev" None)
           [ {| data := [Mock.dev]; next_page := Some "page2" |} ]
           "500 InternalError" "RUNNING").
  - eapply broken_later; [reflexivity | reflexivity |].
    apply broken_here. reflexivity.
  - simpl. lia.
Defined.

(** "PROD" resolves to the second listed compartment. *)
Lemma list_compute_instances_end_to_end_witness :
  exists s',
    list_compute_instances (Mock.env []) 2 "PROD" None (Mock.start "RUNNING")
    = Returns (JArr (map instance_summary_json
                       [Mock.instance_in_state Mock.abc123 "RUNNING"])) s'.
Proof.
  assert (Hprod : first_such (compartment_matches (Mock.env []) "PROD")
                    [Mock.dev; Mock.prod; Mock.root] Mock.prod).
  { exists [Mock.dev], [Mock.root]. split; [reflexivity|]. split; [reflexivity|].
    intros y [<- | []]. reflexivity. }
  eexists.
  apply (proj1 (list_compute_instances_end_to_end (Mock.env []) 2 "PROD" None
                  (Mock.start "RUNNING") [Mock.dev; Mock.prod; Mock.root] _ Mock.prod
                  eq_refl Hprod)
           [Mock.instance_in_state Mock.abc123 "RUNNING"] "RUNNING" eq_refl).
Defined.

(** "WEB-1" in compartment "dev": the details come from the second query,
    which reports RUNNING although the listing showed STOPPED. *)
Lemma by_name_detail_query_witness :
  exists s',
    get_compute_instance_by_name (Mock.faulty false false false) 2 "WEB-1" "dev" None
      (Mock.start "STOPPED")
    = Returns (instance_json (Mock.instance_in_state Mock.abc123 "RUNNING")) s'.
Proof.
  assert (Hweb : first_such (instance_matches (Mock.faulty false false false) "WEB-1")
                   [Mock.instance_in_state Mock.abc123 "STOPPED"]
                   (Mock.instance_in_state Mock.abc123 "STOPPED")).
  { exists [], []. split; [reflexivity|]. split; [reflexivity|]. intros y []. }
  eexists.
  apply (proj1 (by_name_detail_query (Mock.faulty false false false) 2 "WEB-1" "dev" None
                  (Mock.start "STOPPED") Mock.dev _
                  [Mock.instance_in_state Mock.abc123 "STOPPED"] "STOPPED"
                  (Mock.instance_in_state Mock.abc123 "STOPPED")
                  eq_refl eq_refl Hweb)
           (Mock.instance_in_state Mock.abc123 "RUNNING") "STOPPED" eq_refl).
Defined.

(** "ACME" is the root compartment, and no listed compartment bears that name. *)
Lemma listed_compartment_shadows_root_witness :
  exists responses root w1,
    pagination (Mock.env []) None "RUNNING" responses w1
    /\ be_get_compartment (Mock.env []) "ocid1.tenancy.oc1..root" w1 = (Ok root, "RUNNING")
    /\ compartment_matches (Mock.env []) "ACME" Mock.root = true
    /\ (In Mock.root (page_data responses)
        \/ (Mock.root = root
            /\ forall listed, In listed (page_data responses) ->
                              compartment_matches (Mock.env []) "ACME" listed = false)).
Proof.
  apply (listed_compartment_shadows_root (Mock.env []) 2 "ACME" (Mock.start "RUNNING")
           Mock.root
           {| world := "RUNNING";
              trace := [{| ev_call := ListCompartments "ocid1.tenancy.oc1..root" None;
                           ev_ok := true |};
                        {| ev_call := ListCompartments "ocid1.tenancy.oc1..root" (Some "page2");
                           ev_ok := true |};
                        root_event "ocid1.tenancy.oc1..root"] |}
           eq_refl).
Defined.

Lemma read_tools_never_dispatch_witness :
  dispatched
    (issued (Mock.start "RUNNING")
       {| world := "RUNNING";
          trace := [{| ev_call := ListCompartments "ocid1.tenancy.oc1..root" None;
                       ev_ok := true |};
                    {| ev_call := ListCompartments "ocid1.tenancy.oc1..root" (Some "page2");
                       ev_ok := true |};
                    root_event "ocid1.tenancy.oc1..root";
                    list_instances_event DefaultClient "ocid1.compartment.oc1..dev" true;
                    detail_event DefaultClient Mock.abc123 true] |}) = [].
Proof.
  apply (proj1 (read_tools_never_dispatch (Mock.env []) 2 (Mock.start "RUNNING")
                  (instance_json (Mock.instance_in_state Mock.abc123 "RUNNING")) _
                  (or_intror (or_intror (or_intror
                     (ex_intro _ "web-1" (ex_intro _ "dev" (ex_intro _ None eq_refl)))))))).
Defined.
